(** * Submission intake and metadata reader: a shallow embedding

    This development embeds two AWS Lambda handlers of the repository

    - [lambda/intake-handler/lambda_function.py]   (module [Intake]),
    - [lambda/get-submission-metadata/lambda_function.py] (module [Metadata]),

    together with the Python primitives they rely on (module [Py]), and
    proves the properties their specification states about them.

    Conventions.

    - A Python [str] is a list of Unicode code points ([N]); strings are
      Unicode text (scalar values: no lone surrogates), as produced by
      decoding HTTP headers and JSON text, so [str.encode()] is total.
    - A Python [bytes] is a list of [Byte.byte].
    - A [dict] is a [gmap]; [d.get(k, default)] is [default (d !! k)].
    - Calls to AWS services, the clock, [uuid4], [sha256], [b64decode] and
      the Unicode case tables are supplied by an environment record; the
      handlers return the list of service calls and log records they made
      next to their result. *)

From Stdlib Require Import ZArith NArith List Bool Ascii String Lia.
From Stdlib Require Import Strings.Byte.
From stdpp Require Import base decidable option list strings gmap pretty.

Local Open Scope Z_scope.

(** ** Python primitives *)

Module Py.

Definition str : Type := list N.
Definition bytes : Type := list byte.

#[global] Instance byte_eq_dec : EqDecision byte := Byte.byte_eq_dec.

(** Literals: [u "abc"] is the [str] 'abc', [b "abc"] the bytes b'abc'. *)
Definition u (s : string) : str :=
  (fun a => N_of_ascii a) <$> list_ascii_of_string s.
Definition b (s : string) : bytes := list_byte_of_string s.
#[global] Arguments u : simpl never.
#[global] Arguments b : simpl never.

Definition CR : byte := x0d.
Definition LF : byte := x0a.
Definition CRLF : bytes := [CR; LF].

(** *** Sequence operations shared by [str] and [bytes] *)

Section Seq.
Context {A : Type} `{EqDecision A}.

(** [s.startswith(p)] *)
Fixpoint startswith (p s : list A) : bool :=
  match p, s with
  | [], _ => true
  | _ :: _, [] => false
  | x :: p', y :: s' => bool_decide (x = y) && startswith p' s'
  end.

(** the rest of [s] after the prefix [p], when [s] starts with [p] *)
Fixpoint strip_prefix (p s : list A) : option (list A) :=
  match p, s with
  | [], _ => Some s
  | _ :: _, [] => None
  | x :: p', y :: s' => if bool_decide (x = y) then strip_prefix p' s' else None
  end.

(** [s.endswith(p)] *)
Definition endswith (p s : list A) : bool :=
  startswith (reverse p) (reverse s).

(** [s.split(sep, 1)] when [sep in s]: the text before and after the first
    occurrence of [sep]; [None] when [sep] does not occur. *)
Fixpoint split_once (sep s : list A) : option (list A * list A) :=
  match strip_prefix sep s with
  | Some rest => Some ([], rest)
  | None =>
      match s with
      | [] => None
      | c :: s' =>
          match split_once sep s' with
          | Some (before, after) => Some (c :: before, after)
          | None => None
          end
      end
  end.

(** [sep in s] *)
Definition contains (sep s : list A) : bool :=
  bool_decide (is_Some (split_once sep s)).

(** [s.split(sep)] for a non-empty [sep]: cut at the non-overlapping
    occurrences of [sep], scanning from the left. [skip] counts the
    elements of a matched separator still to be passed over; [cur] holds
    the current piece, reversed. *)
Fixpoint split_go (sep : list A) (skip : nat) (cur s : list A) : list (list A) :=
  match s with
  | [] => [reverse cur]
  | c :: s' =>
      match skip with
      | S k => split_go sep k cur s'
      | O =>
          if startswith sep s
          then reverse cur :: split_go sep (length sep - 1) [] s'
          else split_go sep 0 (c :: cur) s'
      end
  end.

Definition split (sep s : list A) : list (list A) := split_go sep 0 [] s.

(** [sep.join(pieces)] *)
Fixpoint join (sep : list A) (pieces : list (list A)) : list A :=
  match pieces with
  | [] => []
  | [x] => x
  | x :: rest => x ++ sep ++ join sep rest
  end.

Fixpoint drop_while (p : A -> bool) (s : list A) : list A :=
  match s with
  | [] => []
  | c :: s' => if p c then drop_while p s' else s
  end.

Fixpoint take_while (p : A -> bool) (s : list A) : list A :=
  match s with
  | [] => []
  | c :: s' => if p c then c :: take_while p s' else []
  end.

(** [s.strip(...)]: remove the elements satisfying [p] at both ends. *)
Definition strip_by (p : A -> bool) (s : list A) : list A :=
  reverse (drop_while p (reverse (drop_while p s))).

(** [s[:-n]] *)
Definition drop_last (n : nat) (s : list A) : list A :=
  take (length s - n) s.

(** [s.rfind(c)] for a single element [c]: the highest index holding [c],
    or [-1]. *)
Fixpoint rfind_go (c : A) (s : list A) (i : Z) (found : Z) : Z :=
  match s with
  | [] => found
  | x :: s' => rfind_go c s' (i + 1) (if bool_decide (x = c) then i else found)
  end.

Definition rfind (c : A) (s : list A) : Z := rfind_go c s 0 (-1).

(** [x in l] for a list or tuple [l] *)
Definition member (x : A) (l : list A) : bool := bool_decide (x ∈ l).

End Seq.

(** *** Characters *)

(** [bytes.strip()] removes ASCII whitespace: b' \t\n\r\x0b\x0c'. *)
Definition isspace_byte (c : byte) : bool :=
  let n := Byte.to_N c in
  ((9 <=? n) && (n <=? 13) || (n =? 32))%N.

(** Unicode whitespace, the set used by [str.split()], [str.strip()] and
    the regular-expression class [\s] on [str] patterns. *)
Definition isspace (c : N) : bool :=
  ((9 <=? c) && (c <=? 13) || (28 <=? c) && (c <=? 32)
   || (c =? 0x85) || (c =? 0xA0) || (c =? 0x1680)
   || (0x2000 <=? c) && (c <=? 0x200A)
   || (c =? 0x2028) || (c =? 0x2029) || (c =? 0x202F)
   || (c =? 0x205F) || (c =? 0x3000))%N.

Definition ch (a : ascii) : N := N_of_ascii a.
#[global] Arguments ch : simpl never.

(** [bytes.strip()] *)
Definition bstrip (s : bytes) : bytes := strip_by isspace_byte s.

(** [str.strip()] *)
Definition strip (s : str) : str := strip_by isspace s.

(** [str.strip(chars)] *)
Definition strip_chars (chars : str) (s : str) : str :=
  strip_by (fun c => member c chars) s.

(** [str.replace(old, new)] for single characters *)
Definition replace_char (old new : N) (s : str) : str :=
  (fun c => if bool_decide (c = old) then new else c) <$> s.

(** [str.split()] with no argument: the maximal runs of non-whitespace. *)
Fixpoint split_ws_go (cur s : str) : list str :=
  match s with
  | [] => match cur with [] => [] | _ => [reverse cur] end
  | c :: s' =>
      if isspace c
      then match cur with
           | [] => split_ws_go [] s'
           | _ => reverse cur :: split_ws_go [] s'
           end
      else split_ws_go (c :: cur) s'
  end.

Definition split_ws (s : str) : list str := split_ws_go [] s.

(** [str.lower()] on ASCII text maps A-Z to a-z and nothing else. For text
    with non-ASCII characters the result comes from the Unicode case
    tables of the runtime, [unicode_lower]. *)
Definition is_ascii (c : N) : bool := (c <? 128)%N.

Definition lower_ascii (c : N) : N :=
  if ((65 <=? c) && (c <=? 90))%N then (c + 32)%N else c.

Definition lower (unicode_lower : str -> str) (s : str) : str :=
  if forallb is_ascii s then lower_ascii <$> s else unicode_lower s.

(** *** The UTF-8 codec *)

Definition byte_of_N (n : N) : byte := default x00 (Byte.of_N n).

(** [str.encode()] (UTF-8), one code point at a time. *)
Definition encode_char (c : N) : bytes :=
  (if c <? 0x80 then [byte_of_N c]
   else if c <? 0x800 then
     [byte_of_N (N.lor 0xC0 (N.shiftr c 6));
      byte_of_N (N.lor 0x80 (N.land c 0x3F))]
   else if c <? 0x10000 then
     [byte_of_N (N.lor 0xE0 (N.shiftr c 12));
      byte_of_N (N.lor 0x80 (N.land (N.shiftr c 6) 0x3F));
      byte_of_N (N.lor 0x80 (N.land c 0x3F))]
   else
     [byte_of_N (N.lor 0xF0 (N.land (N.shiftr c 18) 0x07));
      byte_of_N (N.lor 0x80 (N.land (N.shiftr c 12) 0x3F));
      byte_of_N (N.lor 0x80 (N.land (N.shiftr c 6) 0x3F));
      byte_of_N (N.lor 0x80 (N.land c 0x3F))])%N.

Definition encode (s : str) : bytes := s ≫= encode_char.

(** What a byte means at the start of a character: a whole ASCII
    character, the lead of a sequence with [more + 1] continuation bytes
    whose first one lies in [lo, hi], or an invalid start byte. *)
Inductive utf8_lead :=
  | Single (c : N)
  | Lead (more : nat) (acc lo hi : N)
  | BadLead.

Definition utf8_lead_of (n : N) : utf8_lead :=
  (if n <? 0x80 then Single n
   else if n <? 0xC2 then BadLead
   else if n <? 0xE0 then Lead 0 (N.land n 0x1F) 0x80 0xBF
   else if n =? 0xE0 then Lead 1 (N.land n 0x0F) 0xA0 0xBF
   else if n =? 0xED then Lead 1 (N.land n 0x0F) 0x80 0x9F
   else if n <? 0xF0 then Lead 1 (N.land n 0x0F) 0x80 0xBF
   else if n =? 0xF0 then Lead 2 (N.land n 0x07) 0x90 0xBF
   else if n <? 0xF4 then Lead 2 (N.land n 0x07) 0x80 0xBF
   else if n =? 0xF4 then Lead 2 (N.land n 0x07) 0x80 0x8F
   else BadLead)%N.

Inductive utf8_state :=
  | Start
  | Cont (more : nat) (acc lo hi : N).

(** The decoder's scan of a byte string: [Some c] for each decoded code
    point and [None] for each maximal ill-formed run (an invalid start
    byte, a sequence cut short by a byte that cannot continue it, or by
    the end of the data). *)
Fixpoint utf8_scan (st : utf8_state) (s : bytes) : list (option N) :=
  match s with
  | [] => match st with Start => [] | Cont _ _ _ _ => [None] end
  | c :: s' =>
      let n := Byte.to_N c in
      let start :=
        match utf8_lead_of n with
        | Single cp => Some cp :: utf8_scan Start s'
        | Lead more acc lo hi => utf8_scan (Cont more acc lo hi) s'
        | BadLead => None :: utf8_scan Start s'
        end in
      match st with
      | Start => start
      | Cont more acc lo hi =>
          if ((lo <=? n) && (n <=? hi))%N then
            let acc' := N.lor (N.shiftl acc 6) (N.land n 0x3F) in
            match more with
            | O => Some acc' :: utf8_scan Start s'
            | S k => utf8_scan (Cont k acc' 0x80 0xBF) s'
            end
          else None :: start
      end
  end.

(** [bytes.decode("utf-8")]: [None] stands for [UnicodeDecodeError]. *)
Definition decode (s : bytes) : option str := mapM id (utf8_scan Start s).

(** [bytes.decode("utf-8", errors="replace")] *)
Definition decode_replace (s : bytes) : str :=
  default 0xFFFD%N <$> utf8_scan Start s.

(** *** Regular expressions

    [re.search] returns the leftmost match; [m] attempts a match anchored
    at the start of its argument and returns group 1. *)
Fixpoint re_search (m : str -> option str) (s : str) : option str :=
  match m s with
  | Some g => Some g
  | None =>
      match s with
      | [] => None
      | _ :: s' => re_search m s'
      end
  end.

(** base-10 rendering of an integer in an f-string *)
Definition str_of_Z (z : Z) : str := u (pretty z).

End Py.

(** ** Outcomes of a handler step

    A step of a handler either goes on with a value, leaves the handler
    with a response ([return _build_response(...)]), or raises. *)

Module Flow.

Section Outcome.
Context {R X : Type}.

Inductive outcome (A : Type) :=
  | Next (a : A)
  | Return (r : R)
  | Raise (e : X).

#[global] Arguments Next {A} a.
#[global] Arguments Return {A} r.
#[global] Arguments Raise {A} e.

Definition obind {A B} (f : A -> outcome B) (o : outcome A) : outcome B :=
  match o with
  | Next a => f a
  | Return r => Return r
  | Raise e => Raise e
  end.

(** A step that also performs effects of type [F], recorded in order. *)
Definition M (F A : Type) : Type := (list F * outcome A)%type.

Definition bind {F A B} (m : M F A) (f : A -> M F B) : M F B :=
  match m with
  | (t, Next a) => let '(t', o) := f a in (t ++ t', o)
  | (t, Return r) => (t, Return r)
  | (t, Raise e) => (t, Raise e)
  end.

Definition ret {F A} (a : A) : M F A := ([], Next a).
Definition leave {F A} (r : R) : M F A := ([], Return r).
Definition raise {F A} (e : X) : M F A := ([], Raise e).
Definition emit {F} (f : F) : M F unit := ([f], Next tt).
Definition lift {F A} (o : outcome A) : M F A := ([], o).

(** [try: m  except C as e: handler e], where [catches e] tells whether
    [e] is an instance of the class [C]; other exceptions propagate. *)
Definition try_except {F A} (m : M F A) (catches : X -> bool)
    (handler : X -> M F A) : M F A :=
  match m with
  | (t, Raise e) =>
      if catches e then let '(t', o) := handler e in (t ++ t', o) else m
  | _ => m
  end.

End Outcome.

#[global] Arguments outcome : clear implicits.
#[global] Arguments M : clear implicits.

End Flow.

Notation "x <- m ;; k" := (Flow.bind m (fun x => k))
  (at level 100, m at next level, right associativity, only parsing).
Notation "m ;;; k" := (Flow.bind m (fun _ => k))
  (at level 100, right associativity, only parsing).
Notation "x <~ o ;; k" := (Flow.obind (fun x => k) o)
  (at level 100, o at next level, right associativity, only parsing).

(** ** lambda/intake-handler/lambda_function.py *)

Module Intake.
Import Py Flow.

(** Environment variables read at import time. *)
Record config := {
  RAW_BUCKET : str;
  SUBMISSIONS_TABLE : str;
  AUDIT_TABLE : str;
  MAX_FILE_SIZE : Z;
  AUDIT_FUNCTION_NAME : str;
}.

Definition ALLOWED_EXTENSIONS : list str :=
  [u ".pdf"; u ".docx"; u ".txt"; u ".py"; u ".java"; u ".cpp";
   u ".c"; u ".js"; u ".html"; u ".css"; u ".ipynb"; u ".tex"].

(** [str(sorted(ALLOWED_EXTENSIONS))], as an f-string renders it *)
Definition sorted_ALLOWED_EXTENSIONS_repr : str :=
  u "['.c', '.cpp', '.css', '.docx', '.html', '.ipynb', '.java', '.js', '.pdf', '.py', '.tex', '.txt']".

Definition CORS_HEADERS : list (str * str) :=
  [(u "Content-Type", u "application/json");
   (u "Access-Control-Allow-Origin", u "*");
   (u "Access-Control-Allow-Headers", u "Content-Type,Authorization");
   (u "Access-Control-Allow-Methods", u "POST,OPTIONS")].

(** JSON values of the dicts this handler builds *)
Inductive json :=
  | VStr (s : str)
  | VInt (z : Z).

Definition dict : Type := list (str * json).

(** The response dict; [body] is the dict handed to [json.dumps]. *)
Record response := {
  statusCode : Z;
  headers : list (str * str);
  body : dict;
}.

Definition _build_response (status_code : Z) (body : dict) : response :=
  {| statusCode := status_code; headers := CORS_HEADERS; body := body |}.

Definition error_body (msg : str) : dict := [(u "error", VStr msg)].

(** Exceptions raised inside the handler's [try] block *)
Inductive exn :=
  | Base64Error
  | UnicodeDecodeError
  | KeyError (key : str)
  | ServiceError (what : str).

(** Every exception of the model is an instance of [Exception]. *)
Definition Exception (e : exn) : bool := true.

Inductive level := INFO | WARNING | ERROR.

(** Calls to the outside world, in the order they are made. A log record
    keeps its level and message; [logger.exception] logs at [ERROR]. *)
Inductive effect :=
  | Log (lvl : level) (message : str)
  | S3PutObject (bucket key : str) (body : bytes) (content_type : str)
      (metadata : list (str * str))
  | DynamoPutItem (table : str) (item : dict)
  | LambdaInvoke (function_name invocation_type : str) (payload : dict).

(** The outcome of a service call: it returns, or raises an [Exception]. *)
Inductive service_result :=
  | Succeeds
  | Fails (what : str).

(** The runtime and the services the handler talks to. *)
Record env := {
  b64decode : str -> option bytes;          (* [None]: binascii.Error *)
  sha256_hexdigest : bytes -> str;
  uuid4 : str;
  utcnow_isoformat : str;
  unicode_lower : str -> str;
  s3_put_object : str -> str -> bytes -> service_result;
  dynamodb_put_item : str -> dict -> service_result;
  lambda_invoke : str -> dict -> service_result;
}.

Abbreviation outcome := (Flow.outcome response exn).
Abbreviation M := (Flow.M response exn effect).

(** One decoded part, the dict with keys value and filename *)
Record part := {
  value : bytes;
  filename : option str;
}.

Definition DQUOTE : N := 34%N.

(** [boundary=([^\s;]+)] anchored at the start of [s] *)
Definition match_boundary (s : str) : option str :=
  match strip_prefix (u "boundary=") s with
  | None => None
  | Some rest =>
      match take_while (fun c => negb (isspace c || bool_decide (c = ch ";"))) rest with
      | [] => None
      | tok => Some tok
      end
  end.

(** The pattern for the field name, anchored at the start of [s]: name=Q,
    then the longest run of non-quote characters (captured, non-empty),
    then Q, where Q is the double quote. *)
Definition match_name (s : str) : option str :=
  match strip_prefix (u "name=" ++ [DQUOTE]) s with
  | None => None
  | Some rest =>
      let tok := take_while (fun c => negb (bool_decide (c = DQUOTE))) rest in
      match tok with
      | [] => None
      | _ => if startswith [DQUOTE] (drop (length tok) rest) then Some tok else None
      end
  end.

(** The pattern for the optional filename, anchored at the start of [s]:
    filename=Q, then the longest run of non-quote characters (captured,
    possibly empty), then Q. *)
Definition match_filename (s : str) : option str :=
  match strip_prefix (u "filename=" ++ [DQUOTE]) s with
  | None => None
  | Some rest =>
      let tok := take_while (fun c => negb (bool_decide (c = DQUOTE))) rest in
      if startswith [DQUOTE] (drop (length tok) rest) then Some tok else None
  end.

(** Separation of a part into its header block and its content: at the
    first CRLF CRLF when there is one, else at the first LF LF; [None] when
    the part has neither ([continue]). *)
Definition split_headers (part_bytes : bytes) : option (bytes * bytes) :=
  if contains (CRLF ++ CRLF) part_bytes then split_once (CRLF ++ CRLF) part_bytes
  else if contains [LF; LF] part_bytes then split_once [LF; LF] part_bytes
  else None.

(** The test that skips the preamble and the closing delimiter. *)
Definition is_delimiter_artifact (part_bytes : bytes) : bool :=
  bool_decide (part_bytes = [])
  || member (bstrip part_bytes) [b ""; b "--"; b "--" ++ CRLF].

(** The body of the [for part in parts] loop of [_parse_multipart]:
    [None] is [continue], [Some (field_name, entry)] the assignment
    [parsed[field_name] = entry]. *)
Definition parse_part (part_bytes : bytes) : option (str * part) :=
  if is_delimiter_artifact part_bytes then None
  else
    match split_headers part_bytes with
    | None => None
    | Some (raw_headers, raw_body) =>
        let raw_body :=
          if endswith CRLF raw_body then drop_last 2 raw_body else raw_body in
        let header_text := decode_replace raw_headers in
        match re_search match_name header_text with
        | None => None
        | Some field_name =>
            let filename := re_search match_filename header_text in
            Some (field_name, {| value := raw_body; filename := filename |})
        end
    end.

Definition parse_loop (parsed : gmap str part) (parts : list bytes) : gmap str part :=
  fold_left
    (fun parsed part_bytes =>
       match parse_part part_bytes with
       | None => parsed
       | Some (field_name, entry) => <[field_name := entry]> parsed
       end)
    parts parsed.

(** The delimiter of the body for the matched boundary text [m]. *)
Definition delimiter_of (m : str) : bytes :=
  let boundary := strip_chars (u "'") (strip_chars [DQUOTE] m) in
  encode (u "--" ++ boundary).

(** [_parse_multipart]: [inl msg] is [raise ValueError(msg)]. *)
Definition _parse_multipart (content_type : str) (body_bytes : bytes)
  : str + gmap str part :=
  match re_search match_boundary content_type with
  | None => inl (u "Missing boundary in Content-Type header")
  | Some m =>
      let parts := split (delimiter_of m) body_bytes in
      inr (parse_loop ∅ parts)
  end.

Definition _get_extension (E : env) (filename : str) : str :=
  let idx := rfind (ch ".") filename in
  if bool_decide (idx = -1) then []
  else lower (unicode_lower E) (drop (Z.to_nat idx) filename).

Definition _sha256 (E : env) (data : bytes) : str := sha256_hexdigest E data.

(** *** The handler *)

(** The API Gateway proxy event; an absent or null entry of the event is
    the empty string or the empty dict. *)
Record event := {
  httpMethod : str;
  claims : gmap str str;
  event_body : str;
  isBase64Encoded : bool;
  event_headers : gmap str str;
}.

(** What validation hands over to the storage steps. *)
Record validated := {
  file_content : bytes;
  original_filename : str;
  student_id : str;
  course_id : str;
  section_id : str;
  extension : str;
  file_size : Z;
}.

(** [parts[key]] *)
Definition getitem (parts : gmap str part) (key : str) : outcome part :=
  match parts !! key with
  | Some p => Next p
  | None => Raise (KeyError key)
  end.

(** [for field in (...): if field not in parts: return 400] *)
Fixpoint check_required (parts : gmap str part) (fields : list str) : outcome unit :=
  match fields with
  | [] => Next tt
  | field :: rest =>
      match parts !! field with
      | None =>
          Return (_build_response 400
                    (error_body (u "Missing required field: " ++ field)))
      | Some _ => check_required parts rest
      end
  end.

(** [parts[key]["value"].decode("utf-8").strip()] *)
Definition decoded_field (parts : gmap str part) (key : str) : outcome str :=
  p <~ getitem parts key ;;
  match decode (value p) with
  | Some s => Next (strip s)
  | None => Raise UnicodeDecodeError
  end.

(** Steps 4 to 6 of [lambda_handler]: the required-field, extension and
    size checks. The file part and its filename are bound where the first
    check establishes them. *)
Definition validate (cfg : config) (E : env) (parts : gmap str part)
  : outcome validated :=
  match parts !! u "file" with
  | None => Return (_build_response 400 (error_body (u "Missing required field: file")))
  | Some file =>
      match filename file with
      | None =>
          Return (_build_response 400 (error_body (u "Missing required field: file")))
      | Some original_filename =>
          _ <~ check_required parts [u "student_id"; u "course_id"; u "section_id"] ;;
          let file_content := value file in
          student_id <~ decoded_field parts (u "student_id") ;;
          course_id <~ decoded_field parts (u "course_id") ;;
          section_id <~ decoded_field parts (u "section_id") ;;
          if bool_decide (student_id = []) || bool_decide (course_id = [])
             || bool_decide (section_id = [])
          then Return (_build_response 400
                 (error_body (u "student_id, course_id, and section_id must not be empty")))
          else
            let extension := _get_extension E original_filename in
            if negb (member extension ALLOWED_EXTENSIONS)
            then Return (_build_response 400
                   (error_body (u "Invalid file type '" ++ extension ++ u "'. Allowed: "
                                ++ sorted_ALLOWED_EXTENSIONS_repr)))
            else
              let file_size := Z.of_nat (length file_content) in
              if bool_decide (file_size > MAX_FILE_SIZE cfg)
              then Return (_build_response 413
                     (error_body (u "File too large (" ++ str_of_Z file_size
                                  ++ u " bytes). Maximum allowed: "
                                  ++ str_of_Z (MAX_FILE_SIZE cfg) ++ u " bytes")))
              else Next {| file_content := file_content;
                           original_filename := original_filename;
                           student_id := student_id;
                           course_id := course_id;
                           section_id := section_id;
                           extension := extension;
                           file_size := file_size |}
      end
  end.

(** [a or b] on strings *)
Definition str_or (a c : str) : str := match a with [] => c | _ => a end.

(** A service call: recorded, then it returns or raises. *)
Definition call (f : effect) (r : service_result) : M unit :=
  ([f], match r with Succeeds => Next tt | Fails what => Raise (ServiceError what) end).

(** Step 2: decode the body. *)
Definition decode_body (E : env) (ev : event) : M bytes :=
  let body_raw := event_body ev in
  if bool_decide (body_raw = []) then
    leave (_build_response 400 (error_body (u "Empty request body")))
  else if isBase64Encoded ev then
    match b64decode E body_raw with
    | Some body_bytes => ret body_bytes
    | None => raise Base64Error
    end
  else ret (encode body_raw).

(** Step 3: parse the multipart form data. *)
Definition parse_body (ev : event) (body_bytes : bytes) : M (gmap str part) :=
  let headers := event_headers ev in
  let content_type :=
    str_or (default [] (headers !! u "Content-Type"))
      (str_or (default [] (headers !! u "content-type")) []) in
  if negb (contains (u "multipart/form-data") content_type) then
    leave (_build_response 400
             (error_body (u "Content-Type must be multipart/form-data")))
  else
    match _parse_multipart content_type body_bytes with
    | inr parts => ret parts
    | inl exc =>
        emit (Log WARNING (u "Multipart parse error")) ;;;
        leave (_build_response 400
                 (error_body (u "Malformed multipart body: " ++ exc)))
    end.

(** The key of the stored object, the metadata record, the audit payload
    and the body of the success response of a validated submission. *)
Definition s3_key (E : env) (v : validated) : str :=
  u "submissions/" ++ student_id v ++ u "/" ++ uuid4 E ++ u "/" ++ original_filename v.

Definition s3_metadata (E : env) (v : validated) : list (str * str) :=
  [(u "submission_id", uuid4 E);
   (u "student_id", student_id v);
   (u "sha256", _sha256 E (file_content v))].

Definition submission_item (cfg : config) (E : env) (user_id email : str)
    (v : validated) : dict :=
  [(u "submission_id", VStr (uuid4 E));
   (u "student_id", VStr (student_id v));
   (u "course_id", VStr (course_id v));
   (u "section_id", VStr (section_id v));
   (u "file_path", VStr (u "s3://" ++ RAW_BUCKET cfg ++ u "/" ++ s3_key E v));
   (u "file_name", VStr (original_filename v));
   (u "file_size", VInt (file_size v));
   (u "file_type", VStr (extension v));
   (u "sha256_hash", VStr (_sha256 E (file_content v)));
   (u "upload_timestamp", VStr (utcnow_isoformat E));
   (u "status", VStr (u "uploaded"));
   (u "user_id", VStr user_id);
   (u "email", VStr email)].

Definition upload_audit_payload (E : env) (user_id email : str) (v : validated)
  : dict :=
  [(u "event_type", VStr (u "UPLOAD"));
   (u "submission_id", VStr (uuid4 E));
   (u "student_id", VStr (student_id v));
   (u "course_id", VStr (course_id v));
   (u "section_id", VStr (section_id v));
   (u "file_name", VStr (original_filename v));
   (u "file_size", VInt (file_size v));
   (u "sha256_hash", VStr (_sha256 E (file_content v)));
   (u "upload_timestamp", VStr (utcnow_isoformat E));
   (u "user_id", VStr user_id);
   (u "email", VStr email)].

Definition success_response (E : env) (v : validated) : response :=
  _build_response 200
    [(u "message", VStr (u "File uploaded successfully"));
     (u "submission_id", VStr (uuid4 E));
     (u "file_name", VStr (original_filename v));
     (u "file_size", VInt (file_size v));
     (u "sha256_hash", VStr (_sha256 E (file_content v)));
     (u "upload_timestamp", VStr (utcnow_isoformat E));
     (u "status", VStr (u "uploaded"))].

Definition upload_failed : response :=
  _build_response 500 (error_body (u "Failed to upload file to storage")).

Definition record_failed : response :=
  _build_response 500 (error_body (u "Failed to record submission metadata")).

(** Steps 7 to 11: identifiers, the two writes, the audit notification and
    the success response. The identifier, the digest and the time stamp
    are each obtained once. *)
Definition store (cfg : config) (E : env) (user_id email : str) (v : validated)
  : M response :=
  emit (Log INFO (u "Processing submission")) ;;;
  try_except
    (call (S3PutObject (RAW_BUCKET cfg) (s3_key E v) (file_content v)
             (u "application/octet-stream") (s3_metadata E v))
          (s3_put_object E (RAW_BUCKET cfg) (s3_key E v) (file_content v)))
    Exception
    (fun _ =>
       emit (Log ERROR (u "S3 upload failed")) ;;;
       leave upload_failed) ;;;
  try_except
    (call (DynamoPutItem (SUBMISSIONS_TABLE cfg) (submission_item cfg E user_id email v))
          (dynamodb_put_item E (SUBMISSIONS_TABLE cfg)
             (submission_item cfg E user_id email v)))
    Exception
    (fun _ =>
       emit (Log ERROR (u "DynamoDB write failed")) ;;;
       leave record_failed) ;;;
  (if bool_decide (AUDIT_FUNCTION_NAME cfg = []) then ret tt
   else
     try_except
       (call (LambdaInvoke (AUDIT_FUNCTION_NAME cfg) (u "Event")
                (upload_audit_payload E user_id email v))
             (lambda_invoke E (AUDIT_FUNCTION_NAME cfg)
                (upload_audit_payload E user_id email v)))
       Exception
       (fun _ => emit (Log ERROR (u "Failed to invoke audit-logger")))) ;;;
  emit (Log INFO (u "Submission processed successfully")) ;;;
  ret (success_response E v).

#[global] Arguments store : simpl never.
#[global] Arguments validate : simpl never.

(** The body of the handler's [try] block. *)
Definition try_block (cfg : config) (E : env) (ev : event) : M response :=
  let user_id := default (u "anonymous") (claims ev !! u "sub") in
  let email := default (u "unknown") (claims ev !! u "email") in
  emit (Log INFO (u "Intake request received")) ;;;
  body_bytes <- decode_body E ev ;;
  parts <- parse_body ev body_bytes ;;
  v <- lift (validate cfg E parts) ;;
  store cfg E user_id email v.

Definition internal_error : response :=
  _build_response 500 (error_body (u "Internal server error")).

(** [lambda_handler]: the service calls and log records made, and the
    response returned. *)
Definition lambda_handler (cfg : config) (E : env) (ev : event)
  : list effect * response :=
  if bool_decide (httpMethod ev = u "OPTIONS") then
    ([], _build_response 200 [(u "message", VStr (u "OK"))])
  else
    match try_block cfg E ev with
    | (t, Next r) => (t, r)
    | (t, Return r) => (t, r)
    | (t, Raise _) =>
        (t ++ [Log ERROR (u "Unhandled exception in intake-handler")],
         internal_error)
    end.

(** *** Vocabulary for the statements about the handler *)

(** The trimmed text of a required identifier of a part mapping. *)
Definition identifier (parts : gmap str part) (key : str) (v : str) : Prop :=
  exists p s, parts !! key = Some p /\ decode (value p) = Some s /\ strip s = v.

(** The part mapping passes the missing-file, missing-field and
    empty-identifier checks, with the given file part and identifiers. *)
Definition passes_field_checks (parts : gmap str part) (file : part)
    (fname sid cid secid : str) : Prop :=
  parts !! u "file" = Some file
  /\ filename file = Some fname
  /\ identifier parts (u "student_id") sid /\ sid <> []
  /\ identifier parts (u "course_id") cid /\ cid <> []
  /\ identifier parts (u "section_id") secid /\ secid <> [].

(** The response with which the decoding and validation steps (2 to 6)
    leave the handler, if they do. *)
Definition rejection (cfg : config) (E : env) (ev : event) : option response :=
  if bool_decide (httpMethod ev = u "OPTIONS") then None
  else
    match (decode_body E ev).2 with
    | Return r => Some r
    | Raise _ => None
    | Next body_bytes =>
        match (parse_body ev body_bytes).2 with
        | Return r => Some r
        | Raise _ => None
        | Next parts =>
            match validate cfg E parts with
            | Return r => Some r
            | _ => None
            end
        end
    end.

(** The part mapping that reaches validation, if decoding succeeds. *)
Definition decoded_parts (E : env) (ev : event) : option (gmap str part) :=
  if bool_decide (httpMethod ev = u "OPTIONS") then None
  else
    match (decode_body E ev).2 with
    | Next body_bytes =>
        match (parse_body ev body_bytes).2 with
        | Next parts => Some parts
        | _ => None
        end
    | _ => None
    end.

Inductive call_kind := BlobPut | MetadataPut | AuditNotify.

(** The service calls of a trace, in order, without the log records. *)
Fixpoint calls (t : list effect) : list call_kind :=
  match t with
  | [] => []
  | Log _ _ :: t' => calls t'
  | S3PutObject _ _ _ _ _ :: t' => BlobPut :: calls t'
  | DynamoPutItem _ _ :: t' => MetadataPut :: calls t'
  | LambdaInvoke _ _ _ :: t' => AuditNotify :: calls t'
  end.

(** The trace of the audit step. *)
Definition audit_trace (cfg : config) (E : env) (user_id email : str)
    (v : validated) : list effect :=
  if bool_decide (AUDIT_FUNCTION_NAME cfg = []) then []
  else
    match lambda_invoke E (AUDIT_FUNCTION_NAME cfg)
            (upload_audit_payload E user_id email v) with
    | Succeeds =>
        [LambdaInvoke (AUDIT_FUNCTION_NAME cfg) (u "Event")
           (upload_audit_payload E user_id email v)]
    | Fails _ =>
        [LambdaInvoke (AUDIT_FUNCTION_NAME cfg) (u "Event")
           (upload_audit_payload E user_id email v);
         Log ERROR (u "Failed to invoke audit-logger")]
    end.

(** The environment [E] with another behaviour of the audit invocation. *)
Definition with_lambda_invoke (E : env) (invoke : str -> dict -> service_result)
  : env :=
  {| b64decode := b64decode E;
     sha256_hexdigest := sha256_hexdigest E;
     uuid4 := uuid4 E;
     utcnow_isoformat := utcnow_isoformat E;
     unicode_lower := unicode_lower E;
     s3_put_object := s3_put_object E;
     dynamodb_put_item := dynamodb_put_item E;
     lambda_invoke := invoke |}.

End Intake.

(** ** lambda/get-submission-metadata/lambda_function.py *)

Module Metadata.
Import Py Flow.

Record config := {
  SUBMISSIONS_TABLE : str;
  AUDIT_TABLE : str;
  AUDIT_FUNCTION_NAME : str;
}.

Definition CORS_HEADERS : list (str * str) :=
  [(u "Access-Control-Allow-Origin", u "*");
   (u "Access-Control-Allow-Headers", u "Content-Type,Authorization");
   (u "Access-Control-Allow-Methods", u "GET,OPTIONS");
   (u "Content-Type", u "application/json")].

Definition INTERNAL_FIELDS : list str :=
  [u "_version"; u "_ttl"; u "_internal_flags"].

(** Attribute values of a stored item, and of the JSON bodies built from
    them ([VNum] holds the integral [Decimal]s of DynamoDB). *)
Inductive json :=
  | VStr (s : str)
  | VNum (z : Z)
  | VBool (v : bool)
  | VNull.

#[global] Instance json_eq_dec : EqDecision json.
Proof. solve_decision. Defined.

Record response := {
  statusCode : Z;
  headers : list (str * str);
  body : gmap str json;
}.

Definition _build_response (status_code : Z) (body : gmap str json) : response :=
  {| statusCode := status_code; headers := CORS_HEADERS; body := body |}.

Definition error_body (msg : str) : gmap str json := {[ u "error" := VStr msg ]}.

Definition unidentified_caller : response :=
  _build_response 403 (error_body (u "Unable to determine caller identity")).

Definition not_found : response :=
  _build_response 404 (error_body (u "Submission not found")).

Definition internal_error : response :=
  _build_response 500 (error_body (u "Internal server error")).

(** The 403 response of both refusals of the authorisation block. *)
Definition not_authorised : response :=
  _build_response 403
    (error_body (u "You are not authorised to access this submission")).

(** Exceptions of the boto3 calls: [ClientError] (an error response of the
    service) and the [BotoCoreError] family (no usable response: endpoint
    unreachable, time-out, parameter validation, ...). *)
Inductive exn :=
  | ClientError
  | BotoCoreError (name : string).

Definition is_ClientError (e : exn) : bool :=
  match e with ClientError => true | BotoCoreError _ => false end.

Inductive level := INFO | WARNING | ERROR.

Record audit_payload := {
  event_type : str;
  user_id : str;
  payload_submission_id : str;
  ip_address : str;
  user_agent : str;
  action_metadata : list (str * str);
}.

Inductive effect :=
  | Log (lvl : level) (message : str)
  | DynamoGetItem (table : str) (submission_id : str)
  | LambdaInvoke (function_name invocation_type : str) (payload : audit_payload).

(** What [get_item] does: it returns a response with or without an
    [Item], or raises. *)
Inductive get_item_result :=
  | GetItemOutput (item : option (gmap str json))
  | GetItemRaises (e : exn).

Record env := {
  dynamodb_get_item : str -> str -> get_item_result;
  lambda_invoke : str -> audit_payload -> option exn;   (* [None]: returns *)
}.

Abbreviation outcome := (Flow.outcome response exn).
Abbreviation M := (Flow.M response exn effect).

(** The API Gateway proxy event. *)
Record event := {
  pathParameters : option (gmap str str);
  claims : gmap str str;
  identity : gmap str str;
}.

Record user_info := {
  sub : str;
  email : str;
  groups : str;
}.

Definition _extract_user_info (ev : event) : user_info :=
  {| sub := default [] (claims ev !! u "sub");
     email := default [] (claims ev !! u "email");
     groups := default [] (claims ev !! u "cognito:groups") |}.

Definition _user_in_group (ui : user_info) (group_name : str) : bool :=
  let groups_raw := groups ui in
  if bool_decide (groups_raw = []) then false
  else
    let groups := strip <$> split_ws (replace_char (ch ",") (ch " ") groups_raw) in
    member group_name groups.

Definition _invoke_audit_logger (cfg : config) (E : env)
    (event_type user_id submission_id ip_address user_agent : str)
    (action_metadata : list (str * str)) : M unit :=
  let payload := {| event_type := event_type;
                    user_id := user_id;
                    payload_submission_id := submission_id;
                    ip_address := ip_address;
                    user_agent := user_agent;
                    action_metadata := action_metadata |} in
  try_except
    (([LambdaInvoke (AUDIT_FUNCTION_NAME cfg) (u "Event") payload],
      match lambda_invoke E (AUDIT_FUNCTION_NAME cfg) payload with
      | None => Next tt
      | Some e => Raise e
      end) ;;;
     emit (Log INFO (u "Audit logger invoked asynchronously for submission %s")))
    is_ClientError
    (fun _ => emit (Log ERROR (u "Failed to invoke audit logger"))).

(** Step 4 of [lambda_handler]: the authorisation block. It falls through
    when access is granted and returns the 403 response otherwise. *)
Definition authorise (ui : user_info) (item : gmap str json) : M unit :=
  let is_faculty := _user_in_group ui (u "Faculty") in
  let is_admin := _user_in_group ui (u "Admin") in
  let is_student := _user_in_group ui (u "Students") in
  if is_faculty || is_admin then
    emit (Log INFO (u "Privileged access granted for user %s (email=%s)"))
  else if is_student then
    if negb (bool_decide (item !! u "student_id" = Some (VStr (sub ui)))) then
      emit (Log WARNING (u "Student %s attempted to access submission %s owned by %s")) ;;;
      leave not_authorised
    else emit (Log INFO (u "Student %s accessing own submission %s"))
  else
    emit (Log WARNING (u "User %s does not belong to an authorised group")) ;;;
    leave not_authorised.

(** Step 3: the lookup. *)
Definition fetch (cfg : config) (E : env) (submission_id : str)
  : M (gmap str json) :=
  response <-
    try_except
      (([DynamoGetItem (SUBMISSIONS_TABLE cfg) submission_id],
        match dynamodb_get_item E (SUBMISSIONS_TABLE cfg) submission_id with
        | GetItemOutput item => Next item
        | GetItemRaises e => Raise e
        end) : M (option (gmap str json)))
      is_ClientError
      (fun _ =>
         emit (Log ERROR (u "DynamoDB error while fetching submission %s")) ;;;
         leave internal_error) ;;
  match response with
  | Some item =>
      if bool_decide (item = ∅) then
        emit (Log INFO (u "Submission %s not found")) ;;;
        leave not_found
      else ret item
  | None =>
      emit (Log INFO (u "Submission %s not found")) ;;;
      leave not_found
  end.

(** The record's [student_id], when it holds a string. *)
Definition record_owner (item : gmap str json) : option str :=
  match item !! u "student_id" with
  | Some (VStr s) => Some s
  | _ => None
  end.

(** Step 6: the item without the internal fields. *)
Definition sanitised (item : gmap str json) : gmap str json :=
  filter (fun kv => negb (member kv.1 INTERNAL_FIELDS) = true) item.

(** The [id] path parameter; empty when absent. *)
Definition path_id (ev : event) : str :=
  default [] (default ∅ (pathParameters ev) !! u "id").

(** The payload of the ACCESS audit event of a request. *)
Definition access_payload (ev : event) : audit_payload :=
  {| event_type := u "ACCESS";
     user_id := sub (_extract_user_info ev);
     payload_submission_id := path_id ev;
     ip_address := default (u "unknown") (identity ev !! u "sourceIp");
     user_agent := default (u "unknown") (identity ev !! u "userAgent");
     action_metadata := [(u "email", email (_extract_user_info ev));
                         (u "action", u "get_metadata")] |}.

Definition handler_body (cfg : config) (E : env) (ev : event) : M response :=
  emit (Log INFO (u "Received get-submission-metadata request")) ;;;
  let submission_id := path_id ev in
  (if bool_decide (submission_id = []) then
     emit (Log WARNING (u "Missing submission id in path parameters")) ;;;
     leave (_build_response 400 (error_body (u "Missing submission id in request path")))
   else emit (Log INFO (u "Fetching metadata for submission_id=%s"))) ;;;
  let ui := _extract_user_info ev in
  let user_sub := sub ui in
  let user_email := email ui in
  (if bool_decide (user_sub = []) then
     emit (Log WARNING (u "Unable to determine caller identity from authorizer claims")) ;;;
     leave unidentified_caller
   else ret tt) ;;;
  item <- fetch cfg E submission_id ;;
  authorise ui item ;;;
  let ip_address := default (u "unknown") (identity ev !! u "sourceIp") in
  let user_agent := default (u "unknown") (identity ev !! u "userAgent") in
  _invoke_audit_logger cfg E (u "ACCESS") user_sub submission_id ip_address user_agent
    [(u "email", user_email); (u "action", u "get_metadata")] ;;;
  let sanitised_item := sanitised item in
  emit (Log INFO (u "Returning metadata for submission %s")) ;;;
  ret (_build_response 200 sanitised_item).

(** What an invocation ends with: a response, or an exception that leaves
    the handler (the function has no top-level [try]). *)
Inductive result :=
  | Returned (r : response)
  | Propagated (e : exn).

Definition lambda_handler (cfg : config) (E : env) (ev : event)
  : list effect * result :=
  match handler_body cfg E ev with
  | (t, Next r) => (t, Returned r)
  | (t, Return r) => (t, Returned r)
  | (t, Raise e) => (t, Propagated e)
  end.

End Metadata.

(** ** Definitions that follow the specification's wording *)

Module Spec.
Import Py.

(** Section 4.5, the Access Decision Engine: the outcome is one of
    Allow(as: Owner | PrivilegedRole) and Deny. *)
Inductive tier := Owner | PrivilegedRole.
Inductive decision := Allow (granted_as : tier) | Deny.

(** Group-membership parsing: split on both separators (comma and
    whitespace) and trim each token. *)
Definition is_separator (c : N) : bool :=
  bool_decide (c = ch ",") || isspace c.

Fixpoint split_at (sep : N -> bool) (cur s : str) : list str :=
  match s with
  | [] => [reverse cur]
  | c :: s' =>
      if sep c then reverse cur :: split_at sep [] s'
      else split_at sep (c :: cur) s'
  end.

Definition group_memberships (raw : str) : list str :=
  strip <$> split_at is_separator [] raw.

Definition privileged_groups : list str := [u "Faculty"; u "Admin"].
Definition student_group : str := u "Students".

(** The rule of section 4.5, evaluated in order. *)
Definition access_decision (memberships : list str) (subject_id : str)
    (owner : option str) : decision :=
  if existsb (fun g => member g memberships) privileged_groups then
    Allow PrivilegedRole
  else if member student_group memberships && bool_decide (owner = Some subject_id) then
    Allow Owner
  else Deny.

End Spec.

(** ** The submission validator in the specification's wording *)

Module ValidatorSpec.
Import Py Intake.

(** Section 4.2: the rejection reasons. *)
Inductive rejection :=
  | MissingFile
  | MissingField (name : str)
  | EmptyIdentifier
  | DisallowedExtension (ext : str)
  | FileTooLarge (size limit : Z).

Definition required_fields : list str :=
  [u "student_id"; u "course_id"; u "section_id"].

(** The substring of a filename from its last dot, if it has a dot. *)
Fixpoint from_last_dot (s : str) : option str :=
  match s with
  | [] => None
  | c :: s' =>
      match from_last_dot s' with
      | Some suffix => Some suffix
      | None => if bool_decide (c = ch ".") then Some s else None
      end
  end.

(** The extension: the substring from the last dot, lower-cased; the empty
    string if there is no dot. *)
Definition extension (lower : str -> str) (filename : str) : str :=
  match from_last_dot filename with
  | Some suffix => lower suffix
  | None => []
  end.

(** Check 1: the file part is absent or has no filename. *)
Definition check_file (parts : gmap str part) : option rejection :=
  match parts !! u "file" ≫= filename with
  | Some _ => None
  | None => Some MissingFile
  end.

(** Check 2: one of the three identifier parts is absent. *)
Definition absent (parts : gmap str part) (name : str) : bool :=
  match parts !! name with
  | None => true
  | Some _ => false
  end.

Definition check_fields (parts : gmap str part) : option rejection :=
  MissingField <$> List.find (absent parts) required_fields.

(** Check 3: one of the three, decoded and trimmed, is empty. *)
Definition check_identifiers (parts : gmap str part) : option rejection :=
  if existsb
       (fun f =>
          match parts !! f ≫= (fun p => decode (value p)) with
          | Some s => bool_decide (strip s = [])
          | None => false
          end)
       required_fields
  then Some EmptyIdentifier
  else None.

(** Check 4: the extension is not in the allow-list. *)
Definition check_extension (lower : str -> str) (allowed_extensions : list str)
    (parts : gmap str part) : option rejection :=
  match parts !! u "file" ≫= filename with
  | Some fname =>
      let ext := extension lower fname in
      if member ext allowed_extensions then None else Some (DisallowedExtension ext)
  | None => None
  end.

(** Check 5: the file content is longer than the ceiling. *)
Definition check_size (max_size_bytes : Z) (parts : gmap str part)
  : option rejection :=
  match parts !! u "file" with
  | Some file =>
      let size := Z.of_nat (length (value file)) in
      if bool_decide (size > max_size_bytes)
      then Some (FileTooLarge size max_size_bytes)
      else None
  | None => None
  end.

(** The checks in their fixed order; the first failing one wins. *)
Definition checks (lower : str -> str) (allowed_extensions : list str)
    (max_size_bytes : Z) (parts : gmap str part) : list (option rejection) :=
  [check_file parts; check_fields parts; check_identifiers parts;
   check_extension lower allowed_extensions parts;
   check_size max_size_bytes parts].

Definition first_failing (cs : list (option rejection)) : option rejection :=
  head (omap id cs).

(** Section 7: every rejection is a client-input error (400) except the
    oversized payload (413). The messages are those of the handler. *)
Definition rejection_response (r : rejection) : response :=
  match r with
  | MissingFile =>
      _build_response 400 (error_body (u "Missing required field: file"))
  | MissingField name =>
      _build_response 400 (error_body (u "Missing required field: " ++ name))
  | EmptyIdentifier =>
      _build_response 400
        (error_body (u "student_id, course_id, and section_id must not be empty"))
  | DisallowedExtension ext =>
      _build_response 400
        (error_body (u "Invalid file type '" ++ ext ++ u "'. Allowed: "
                     ++ sorted_ALLOWED_EXTENSIONS_repr))
  | FileTooLarge size limit =>
      _build_response 413
        (error_body (u "File too large (" ++ str_of_Z size
                     ++ u " bytes). Maximum allowed: " ++ str_of_Z limit ++ u " bytes"))
  end.

(** The validator's verdict for a part mapping, by the specification. *)
Definition verdict (cfg : config) (E : env) (parts : gmap str part)
  : option rejection :=
  first_failing
    (checks (lower (unicode_lower E)) ALLOWED_EXTENSIONS (MAX_FILE_SIZE cfg) parts).

(** The identifier values that are present are valid UTF-8. *)
Definition identifiers_decodable (parts : gmap str part) : Prop :=
  forall name p,
    name ∈ required_fields ->
    parts !! name = Some p -> is_Some (decode (value p)).

End ValidatorSpec.

(** ** The multipart decoder in the specification's wording *)

Module DecoderSpec.
Import Py Intake.





End DecoderSpec.

(** ** Sample requests and environments *)

Module Examples.
Import Py.

Module Meta.
Import Metadata.

Definition cfg : config :=
  {| SUBMISSIONS_TABLE := u "submissions";
     AUDIT_TABLE := u "audit";
     AUDIT_FUNCTION_NAME := u "audit-logger" |}.

(** A stored record owned by student-y. *)
Definition item_y : gmap str json :=
  {[ u "submission_id" := VStr (u "sub-1");
     u "student_id" := VStr (u "student-y");
     u "file_name" := VStr (u "homework.pdf");
     u "file_size" := VNum 40;
     u "_version" := VNum 1 ]}.

Definition table (key : str) : get_item_result :=
  if bool_decide (key = u "sub-1") then GetItemOutput (Some item_y)
  else GetItemOutput None.

(** All services answer. *)
Definition E_up : env :=
  {| dynamodb_get_item := fun _ key => table key;
     lambda_invoke := fun _ _ => None |}.

(** The audit function cannot be reached: boto3 raises
    EndpointConnectionError, a BotoCoreError. *)
Definition E_audit_unreachable : env :=
  {| dynamodb_get_item := fun _ key => table key;
     lambda_invoke := fun _ _ => Some (BotoCoreError "EndpointConnectionError") |}.

Definition request (id : option string) (claims : list (string * string)) : event :=
  {| pathParameters := (fun i => {[ u "id" := u i ]}) <$> id;
     claims := list_to_map ((fun kv => (u kv.1, u kv.2)) <$> claims);
     identity := {[ u "sourceIp" := u "10.0.0.1" ]} |}.

Definition student_x_reads_y : event :=
  request (Some "sub-1")
    [("sub", "student-x"); ("email", "x@uni.edu"); ("cognito:groups", "Students")].

Definition student_y_reads_y : event :=
  request (Some "sub-1")
    [("sub", "student-y"); ("email", "y@uni.edu"); ("cognito:groups", "Students")].

Definition faculty_reads_y : event :=
  request (Some "sub-1")
    [("sub", "prof-1"); ("email", "p@uni.edu"); ("cognito:groups", "Students, Faculty")].

Definition student_x_reads_absent : event :=
  request (Some "sub-404")
    [("sub", "student-x"); ("email", "x@uni.edu"); ("cognito:groups", "Students")].

Definition anonymous_reads_y : event :=
  request (Some "sub-1") [("cognito:groups", "Faculty")].

Definition anonymous_without_id : event :=
  request None [].

End Meta.

Module Up.
Import Intake.

Definition cfg : config :=
  {| RAW_BUCKET := u "raw-bucket";
     SUBMISSIONS_TABLE := u "submissions";
     AUDIT_TABLE := u "audit";
     MAX_FILE_SIZE := 8;
     AUDIT_FUNCTION_NAME := u "audit-logger" |}.

(** Base64 for canonical text (alphabet characters only, padded to a
    multiple of four), on which it agrees with [base64.b64decode]. *)
Definition b64_alphabet : str :=
  u "ABCDEFGHIJKLMNOPQRSTUVWXYZabcdefghijklmnopqrstuvwxyz0123456789+/".

Definition b64_char (v : N) : N := nth (N.to_nat v) b64_alphabet 0%N.

Definition b64_value (c : N) : option N :=
  (fun hit => N.of_nat hit.1) <$> list_find (fun x => x = c) b64_alphabet.

Fixpoint b64encode (s : bytes) : str :=
  match s with
  | [] => []
  | [x] =>
      let n := Byte.to_N x in
      [b64_char (N.shiftr n 2); b64_char (N.shiftl (N.land n 3) 4); ch "="; ch "="]
  | [x; y] =>
      let n := Byte.to_N x in
      let m := Byte.to_N y in
      [b64_char (N.shiftr n 2);
       b64_char (N.lor (N.shiftl (N.land n 3) 4) (N.shiftr m 4));
       b64_char (N.shiftl (N.land m 15) 2); ch "="]
  | x :: y :: z :: rest =>
      let n := Byte.to_N x in
      let m := Byte.to_N y in
      let k := Byte.to_N z in
      b64_char (N.shiftr n 2)
      :: b64_char (N.lor (N.shiftl (N.land n 3) 4) (N.shiftr m 4))
      :: b64_char (N.lor (N.shiftl (N.land m 15) 2) (N.shiftr k 6))
      :: b64_char (N.land k 63)
      :: b64encode rest
  end.

Fixpoint b64decode_canonical (s : str) : option bytes :=
  match s with
  | [] => Some []
  | c1 :: c2 :: c3 :: c4 :: rest =>
      v1 ← b64_value c1;
      v2 ← b64_value c2;
      let b1 := byte_of_N (N.lor (N.shiftl v1 2) (N.shiftr v2 4)) in
      if bool_decide (c4 = ch "=") then
        match rest with
        | [] =>
            if bool_decide (c3 = ch "=") then Some [b1]
            else
              v3 ← b64_value c3;
              Some [b1; byte_of_N (N.lor (N.shiftl (N.land v2 15) 4) (N.shiftr v3 2))]
        | _ => None
        end
      else
        v3 ← b64_value c3;
        v4 ← b64_value c4;
        tail ← b64decode_canonical rest;
        Some (b1
              :: byte_of_N (N.lor (N.shiftl (N.land v2 15) 4) (N.shiftr v3 2))
              :: byte_of_N (N.lor (N.shiftl (N.land v3 3) 6) v4)
              :: tail)
  | _ => None
  end.

(** Runtime stand-ins: a fixed identifier, time stamp and digest, and the
    identity for the non-ASCII case tables. *)
Definition runtime (s3 : service_result) (dynamo : service_result)
    (audit : service_result) : env :=
  {| b64decode := b64decode_canonical;
     sha256_hexdigest :=
       fun _ => u "e3b0c44298fc1c149afbf4c8996fb92427ae41e4649b934ca495991b7852b855";
     uuid4 := u "1b4e28ba-2fa1-41d2-883f-0016d3cca427";
     utcnow_isoformat := u "2026-01-01T00:00:00+00:00";
     unicode_lower := fun s => s;
     s3_put_object := fun _ _ _ => s3;
     dynamodb_put_item := fun _ _ => dynamo;
     lambda_invoke := fun _ _ => audit |}.

Definition E_up : env := runtime Succeeds Succeeds Succeeds.
Definition E_s3_down : env := runtime (Fails (u "ServiceUnavailable")) Succeeds Succeeds.
Definition E_audit_down : env := runtime Succeeds Succeeds (Fails (u "TooManyRequests")).

(** Multipart bodies with the boundary XYZ. *)
Definition content_type : str := u "multipart/form-data; boundary=XYZ".

Definition field_part (name : string) (content : bytes) : bytes :=
  b "--XYZ" ++ CRLF
  ++ b "Content-Disposition: form-data; name=" ++ [x22] ++ b name ++ [x22] ++ CRLF
  ++ CRLF ++ content ++ CRLF.

Definition file_part (fname : string) (content : bytes) : bytes :=
  b "--XYZ" ++ CRLF
  ++ b "Content-Disposition: form-data; name=" ++ [x22] ++ b "file" ++ [x22]
  ++ b "; filename=" ++ [x22] ++ b fname ++ [x22] ++ CRLF
  ++ b "Content-Type: application/octet-stream" ++ CRLF
  ++ CRLF ++ content ++ CRLF.

Definition closing : bytes := b "--XYZ--" ++ CRLF.

Definition post (base64 : bool) (body : bytes) : event :=
  {| httpMethod := u "POST";
     claims := {[ u "sub" := u "user-123"; u "email" := u "student@university.edu" ]};
     event_body := if base64 then b64encode body else decode_replace body;
     isBase64Encoded := base64;
     event_headers := {[ u "Content-Type" := content_type ]} |}.

(** A valid upload of an eight-byte homework.pdf. *)
Definition homework_body : bytes :=
  field_part "student_id" (b "stu-001") ++ field_part "course_id" (b "CS101")
  ++ field_part "section_id" (b "A") ++ file_part "homework.pdf" (b "%PDF-1.4")
  ++ closing.

Definition upload_homework : event := post false homework_body.

(** The same upload with a student_id that is not valid UTF-8. *)
Definition bad_utf8_body : bytes :=
  field_part "student_id" [xff; xfe] ++ field_part "course_id" (b "CS101")
  ++ field_part "section_id" (b "A") ++ file_part "homework.pdf" (b "%PDF-1.4")
  ++ closing.

Definition upload_bad_utf8 : event := post true bad_utf8_body.

(** A student_id that is not valid UTF-8, and no file part. *)
Definition bad_utf8_no_file_body : bytes :=
  field_part "student_id" [xff; xfe] ++ field_part "course_id" (b "CS101")
  ++ field_part "section_id" (b "A") ++ closing.

Definition upload_bad_utf8_no_file : event := post true bad_utf8_no_file_body.



(** Part mappings as the decoder delivers them. *)
Definition text_part (content : bytes) : part :=
  {| value := content; filename := None |}.

Definition homework_file : part :=
  {| value := b "%PDF-1.4"; filename := Some (u "homework.pdf") |}.

Definition homework_parts : gmap str part :=
  {[ u "file" := homework_file;
     u "student_id" := text_part (b "stu-001");
     u "course_id" := text_part (b "CS101");
     u "section_id" := text_part (b "A") ]}.

(** An executable with a student_id that is not valid UTF-8. *)
Definition exe_bad_utf8_parts : gmap str part :=
  {[ u "file" := {| value := b "MZ"; filename := Some (u "a.exe") |};
     u "student_id" := text_part [xff];
     u "course_id" := text_part (b "CS101");
     u "section_id" := text_part (b "A") ]}.

(** Only the file and the course are present. *)
Definition two_missing_parts : gmap str part :=
  {[ u "file" := homework_file;
     u "course_id" := text_part (b "CS101") ]}.

(** The same upload named Report.PDF. *)
Definition upper_case_file : part :=
  {| value := b "%PDF-1.4"; filename := Some (u "Report.PDF") |}.

Definition upper_case_parts : gmap str part :=
  <[ u "file" := upper_case_file ]> homework_parts.

End Up.

End Examples.

(** ** Further vocabulary for the intake handler *)

Module IntakeMore.
Import Py Intake.

(** [d.get(key)] on a dict written as the list of its entries. *)
Definition dict_get (d : dict) (key : str) : option json :=
  snd <$> List.find (fun kv => bool_decide (kv.1 = key)) d.

End IntakeMore.

(** * Properties *)

(** ** The Python primitives *)

Section Primitives.
Import Py.

Lemma startswith_app {A} `{EqDecision A} (p s : list A) :
  startswith p s = true -> exists rest, s = p ++ rest.
Proof.
  revert s. induction p as [|x p IH]; intros s; cbn; [eauto|].
  destruct s as [|y s]; [discriminate|].
  case_bool_decide as Hxy; [|discriminate]. subst y. cbn.
  intros Hp. destruct (IH s Hp) as [rest ->]. eauto.
Qed.

Lemma join_cons_cons {A} (sep x y : list A) (l : list (list A)) :
  join sep (x :: y :: l) = x ++ sep ++ join sep (y :: l).
Proof. reflexivity. Qed.

(** Splitting loses nothing: joining the pieces with the separator gives
    the text back. While [skip] elements of a matched separator remain to
    be passed over, the text still starts with them. *)
Lemma split_go_join {A} `{EqDecision A} (sep : list A) (s : list A) :
  forall skip cur rest,
    (skip < length sep)%nat ->
    s = drop (length sep - skip) sep ++ rest ->
    split_go sep skip cur s <> []
    /\ join sep (split_go sep skip cur s) = reverse cur ++ rest.
Proof.
  induction s as [|c s IH]; intros skip cur rest Hskip Hs.
  - symmetry in Hs. apply app_eq_nil in Hs as [_ ->].
    cbn. rewrite app_nil_r. split; [discriminate|reflexivity].
  - destruct skip as [|k]; cbn [split_go].
    + rewrite Nat.sub_0_r, drop_all in Hs. cbn in Hs. subst rest.
      destruct (startswith sep (c :: s)) eqn:Hstart.
      * apply startswith_app in Hstart as [after Hafter].
        destruct sep as [|x sep']; [cbn in Hskip; lia|].
        cbn in Hafter. injection Hafter as <- ->.
        destruct (IH (length (c :: sep') - 1)%nat [] after) as [Hne Hjoin].
        { cbn. lia. }
        { cbn [length]. replace (S (length sep') - (S (length sep') - 1))%nat with 1%nat by lia.
          reflexivity. }
        split; [discriminate|].
        destruct (split_go (c :: sep') (length (c :: sep') - 1) [] (sep' ++ after))
          as [|y l]; [exfalso; apply Hne; reflexivity|].
        rewrite join_cons_cons, Hjoin. reflexivity.
      * destruct (IH 0%nat (c :: cur) s) as [Hne Hjoin]; [exact Hskip| |].
        { rewrite Nat.sub_0_r, drop_all. reflexivity. }
        split; [exact Hne|]. rewrite Hjoin, reverse_cons, <- app_assoc. reflexivity.
    + assert (Hlook : is_Some (sep !! (length sep - S k)%nat)).
      { apply lookup_lt_is_Some. lia. }
      destruct Hlook as [x Hx].
      rewrite (drop_S _ _ _ Hx) in Hs.
      replace (S (length sep - S k)) with (length sep - k)%nat in Hs by lia.
      cbn in Hs. injection Hs as -> ->.
      apply IH; [lia|reflexivity].
Qed.

Lemma split_join {A} `{EqDecision A} (sep s : list A) :
  sep <> [] -> join sep (split sep s) = s.
Proof.
  intros Hsep. unfold split.
  destruct (split_go_join sep s 0 [] s) as [_ Hjoin].
  - destruct sep; [contradiction|cbn; lia].
  - rewrite Nat.sub_0_r, drop_all. reflexivity.
  - exact Hjoin.
Qed.

(** The strict decoder accepts exactly the scans without an ill-formed
    run, and then agrees with the replacing decoder. *)
Lemma decode_replace_of_decode (s : bytes) (text : str) :
  decode s = Some text -> decode_replace s = text.
Proof.
  unfold decode, decode_replace. generalize (utf8_scan Start s).
  intros scan. revert text. induction scan as [|o scan IH]; intros text.
  - intros [= <-]. reflexivity.
  - cbn. destruct o as [c|]; cbn; [|discriminate].
    destruct (mapM id scan) as [t|]; cbn; [|discriminate].
    intros [= <-]. rewrite (IH t eq_refl). reflexivity.
Qed.

Example split_example :
  split (b "ab") (b "xabyab") = [b "x"; b "y"; b ""].
Proof. reflexivity. Qed.

Example split_no_separator : split (b "--XYZ") (b "") = [b ""].
Proof. reflexivity. Qed.

Example bstrip_example : bstrip (b "--" ++ CRLF) = b "--".
Proof. reflexivity. Qed.

Example split_ws_example :
  split_ws (replace_char (ch ",") (ch " ") (u " Faculty,Admin  x,,y "))
  = [u "Faculty"; u "Admin"; u "x"; u "y"].
Proof. reflexivity. Qed.

Example rfind_example :
  rfind (ch ".") (u "a.b.c") = 3 /\ rfind (ch ".") (u "abc") = -1.
Proof. split; reflexivity. Qed.

(** The euro sign, an invalid start byte, a sequence cut short by an
    invalid continuation, and a sequence cut short by the end. *)
Example decode_replace_example :
  decode_replace [xe2; x82; xac; xff; x41; xe0; x80; xf0; x9f]
  = [0x20AC; 0xFFFD; 0x41; 0xFFFD; 0xFFFD; 0xFFFD]%N.
Proof. reflexivity. Qed.

Example decode_invalid : decode [xff; xfe] = None.
Proof. reflexivity. Qed.

Example decode_encode_example :
  decode (encode [0x20AC; 0x41; 0x1F600; 0xE9]%N) = Some [0x20AC; 0x41; 0x1F600; 0xE9]%N.
Proof. reflexivity. Qed.

End Primitives.

(** ** The access decision of the metadata reader *)

Section AccessDecision.
Import Py Flow Metadata.

Lemma reverse_eq_nil {A} (l : list A) : reverse l = [] <-> l = [].
Proof.
  split; [|intros ->; reflexivity].
  intros Hr. apply (f_equal reverse) in Hr.
  rewrite reverse_involutive in Hr. exact Hr.
Qed.

Lemma isspace_replaced (c : N) :
  isspace (if bool_decide (c = ch ",") then ch " " else c) = Spec.is_separator c.
Proof.
  unfold Spec.is_separator. case_bool_decide; [reflexivity|].
  reflexivity.
Qed.

(** [replace(",", " ").split()] yields the non-empty pieces between
    separators. *)
Lemma split_ws_go_replace (s cur : str) :
  split_ws_go cur (replace_char (ch ",") (ch " ") s)
  = filter (fun t => t <> []) (Spec.split_at Spec.is_separator cur s).
Proof.
  revert cur. induction s as [|c s IH]; intros cur; simpl.
  - destruct cur as [|x cur]; [reflexivity|].
    rewrite filter_cons_True; [reflexivity|].
    rewrite reverse_eq_nil. discriminate.
  - rewrite isspace_replaced.
    destruct (Spec.is_separator c) eqn:Hsep.
    + destruct cur as [|x cur].
      * rewrite filter_cons_False by (intros Hn; apply Hn; reflexivity).
        apply IH.
      * rewrite filter_cons_True by (rewrite reverse_eq_nil; discriminate).
        f_equal. apply IH.
    + assert (Hc : (if bool_decide (c = ch ",") then ch " " else c) = c).
      { unfold Spec.is_separator in Hsep. case_bool_decide; [discriminate|reflexivity]. }
      rewrite Hc. apply IH.
Qed.

Lemma strip_nil : strip [] = [].
Proof. reflexivity. Qed.

(** The membership test of the code is membership among the tokens of the
    specification, for every non-empty group name. *)
Lemma user_in_group_spec (ui : user_info) (g : str) :
  g <> [] ->
  _user_in_group ui g = bool_decide (g ∈ Spec.group_memberships (groups ui)).
Proof.
  intros Hg. unfold _user_in_group, Spec.group_memberships, member.
  case_bool_decide as Hraw.
  - rewrite Hraw. simpl. symmetry. apply bool_decide_eq_false.
    rewrite list_elem_of_singleton. exact Hg.
  - unfold split_ws. rewrite split_ws_go_replace.
    apply bool_decide_ext. rewrite !list_elem_of_fmap. split.
    + intros (t & -> & Ht). apply list_elem_of_filter in Ht as [_ Ht]. eauto.
    + intros (t & -> & Ht). exists t. split; [reflexivity|].
      apply list_elem_of_filter. split; [|exact Ht].
      intros ->. apply Hg. reflexivity.
Qed.

End AccessDecision.

Section FlowFacts.
Import Flow.
Context {R X F : Type}.

Lemma bind_snd {A B} (m : M R X F A) (f : A -> M R X F B) :
  (bind m f).2 = match m.2 with
                 | Next a => (f a).2
                 | Return r => Return r
                 | Raise e => Raise e
                 end.
Proof. destruct m as [t [a|r|e]]; simpl; [destruct (f a)|..]; reflexivity. Qed.

Lemma bind_fst {A B} (m : M R X F A) (f : A -> M R X F B) :
  (bind m f).1 = m.1 ++ match m.2 with
                        | Next a => (f a).1
                        | _ => []
                        end.
Proof.
  destruct m as [t [a|r|e]]; simpl; [destruct (f a); reflexivity|..];
    rewrite app_nil_r; reflexivity.
Qed.

End FlowFacts.

Section AuthorisationBlock.
Import Py Flow Metadata.

Lemma group_name_nonempty (g : string) : g <> ""%string -> u g <> [].
Proof. destruct g; [congruence|discriminate]. Qed.

Lemma authorise_decision (ui : user_info) (item : gmap str json) :
  (authorise ui item).2 =
    match Spec.access_decision (Spec.group_memberships (groups ui)) (sub ui)
            (record_owner item) with
    | Spec.Allow _ => Next tt
    | Spec.Deny => Return not_authorised
    end.
Proof.
  unfold authorise, Spec.access_decision, Spec.privileged_groups,
    Spec.student_group, member.
  cbn [existsb].
  rewrite !user_in_group_spec by (apply group_name_nonempty; discriminate).
  rewrite orb_false_r.
  destruct (bool_decide (u "Faculty" ∈ _) || bool_decide (u "Admin" ∈ _)); [reflexivity|].
  destruct (bool_decide (u "Students" ∈ _)); [|reflexivity].
  cbn [andb].
  assert (Hown : bool_decide (item !! u "student_id" = Some (VStr (sub ui)))
                 = bool_decide (record_owner item = Some (sub ui))).
  { apply bool_decide_ext. unfold record_owner.
    destruct (item !! u "student_id") as [[s|z|v|]|]; split; congruence. }
  rewrite Hown. destruct (bool_decide (record_owner item = Some (sub ui))); reflexivity.
Qed.

End AuthorisationBlock.

Section ReaderEarlyExits.
Import Py Flow Metadata.

Lemma reader_missing_id cfg E ev :
  path_id ev = [] ->
  lambda_handler cfg E ev =
    ([Log INFO (u "Received get-submission-metadata request");
      Log WARNING (u "Missing submission id in path parameters")],
     Returned (_build_response 400
                 (error_body (u "Missing submission id in request path")))).
Proof.
  intros Hid. unfold lambda_handler, handler_body. rewrite Hid.
  reflexivity.
Qed.

Lemma reader_unidentified cfg E ev :
  path_id ev <> [] ->
  sub (_extract_user_info ev) = [] ->
  lambda_handler cfg E ev =
    ([Log INFO (u "Received get-submission-metadata request");
      Log INFO (u "Fetching metadata for submission_id=%s");
      Log WARNING (u "Unable to determine caller identity from authorizer claims")],
     Returned unidentified_caller).
Proof.
  intros Hid Hsub. unfold lambda_handler, handler_body.
  rewrite (bool_decide_eq_false_2 _ Hid), Hsub. reflexivity.
Qed.

End ReaderEarlyExits.

Section ReaderIdentified.
Import Py Flow Metadata.

Lemma reader_identified cfg E ev :
  path_id ev <> [] ->
  sub (_extract_user_info ev) <> [] ->
  (lambda_handler cfg E ev).2 =
    match dynamodb_get_item E (SUBMISSIONS_TABLE cfg) (path_id ev) with
    | GetItemRaises e =>
        if is_ClientError e then Returned internal_error else Propagated e
    | GetItemOutput None => Returned not_found
    | GetItemOutput (Some item) =>
        if bool_decide (item = ∅) then Returned not_found
        else
          match (authorise (_extract_user_info ev) item).2 with
          | Return r => Returned r
          | Raise e => Propagated e
          | Next _ =>
              match lambda_invoke E (AUDIT_FUNCTION_NAME cfg) (access_payload ev) with
              | None => Returned (_build_response 200 (sanitised item))
              | Some e =>
                  if is_ClientError e
                  then Returned (_build_response 200 (sanitised item))
                  else Propagated e
              end
          end
    end.
Proof.
  intros Hid Hsub. unfold lambda_handler, handler_body, fetch, _invoke_audit_logger.
  rewrite (bool_decide_eq_false_2 _ Hid), (bool_decide_eq_false_2 _ Hsub).
  fold (access_payload ev).
  destruct (dynamodb_get_item E (SUBMISSIONS_TABLE cfg) (path_id ev)) as [[item|]|e];
    cbn.
  - case_bool_decide; [reflexivity|]. cbn.
    destruct (authorise (_extract_user_info ev) item) as [t [[]|r|e]]; cbn;
      [|reflexivity..].
    destruct (lambda_invoke E (AUDIT_FUNCTION_NAME cfg) (access_payload ev)) as [[|n]|];
      reflexivity.
  - reflexivity.
  - destruct e; reflexivity.
Qed.
End ReaderIdentified.

Section AccessDecisionClaim.
Import Py Flow Metadata.


Import Examples.Meta.


End AccessDecisionClaim.

Section ReaderClaims.
Import Py Flow Metadata Examples.Meta.

(** The lookup appears in the trace only after both the id check and the
    identity check have passed. *)
Lemma lookup_requires_identity cfg E ev table key :
  DynamoGetItem table key ∈ (lambda_handler cfg E ev).1 ->
  path_id ev <> [] /\ sub (_extract_user_info ev) <> [].
Proof.
  intros Hin.
  destruct (decide (path_id ev = [])) as [Hid|Hid].
  { rewrite (reader_missing_id cfg E ev Hid) in Hin. cbn in Hin.
    repeat (apply elem_of_cons in Hin as [Hin|Hin]; [discriminate|]).
    apply elem_of_nil in Hin. contradiction. }
  destruct (decide (sub (_extract_user_info ev) = [])) as [Hsub|Hsub]; [|auto].
  rewrite (reader_unidentified cfg E ev Hid Hsub) in Hin. cbn in Hin.
  repeat (apply elem_of_cons in Hin as [Hin|Hin]; [discriminate|]).
  apply elem_of_nil in Hin. contradiction.
Qed.

(** C7, as stated, fails: a request without a subject id and without a
    submission id is answered 400 by the id check, which comes first. *)
Lemma C7_counterexample :
  sub (_extract_user_info anonymous_without_id) = []
  /\ (lambda_handler cfg E_up anonymous_without_id).2
     = Returned (_build_response 400
                   (error_body (u "Missing submission id in request path")))
  /\ (lambda_handler cfg E_up anonymous_without_id).2 <> Returned unidentified_caller.
Proof.
  split; [reflexivity|]. split; [reflexivity|].
  rewrite (reader_missing_id cfg E_up anonymous_without_id eq_refl).
  cbn. intros Heq. inversion Heq.
Qed.

(** C7, amended. For every request whose claims lack a subject id, the
    record lookup never occurs; when the request carries a submission id
    the reader returns the unidentified-caller failure (403), and when it
    does not, the missing-id failure (400). The identity check precedes
    the lookup. *)
Theorem C7_identity_check_precedes_lookup cfg E ev :
  sub (_extract_user_info ev) = [] ->
  (forall table key, DynamoGetItem table key ∉ (lambda_handler cfg E ev).1)
  /\ (path_id ev <> [] ->
      (lambda_handler cfg E ev).2 = Returned unidentified_caller
      /\ statusCode unidentified_caller = 403)
  /\ (path_id ev = [] ->
      (lambda_handler cfg E ev).2
      = Returned (_build_response 400
                    (error_body (u "Missing submission id in request path")))).
Proof.
  intros Hsub. split; [|split].
  - intros table key Hin.
    apply lookup_requires_identity in Hin as [_ Hne]. contradiction.
  - intros Hid. rewrite (reader_unidentified cfg E ev Hid Hsub). split; reflexivity.
  - intros Hid. rewrite (reader_missing_id cfg E ev Hid). reflexivity.
Qed.

(** A request for sub-1 without a subject id, even with a Faculty group
    claim: 403 and no lookup. *)
Lemma C7_identity_check_precedes_lookup_witness :
  sub (_extract_user_info anonymous_reads_y) = []
  /\ (forall table key,
        DynamoGetItem table key ∉ (lambda_handler cfg E_up anonymous_reads_y).1)
  /\ (lambda_handler cfg E_up anonymous_reads_y).2 = Returned unidentified_caller.
Proof.
  pose proof (C7_identity_check_precedes_lookup cfg E_up anonymous_reads_y eq_refl)
    as (Hno & Hid & _).
  split; [reflexivity|]. split; [exact Hno|].
  apply Hid. vm_compute. discriminate.
Defined.

(** C6, as stated, fails: a denied caller and a caller asking for an absent
    record receive different responses. *)
Lemma C6_counterexample :
  (lambda_handler cfg E_up student_x_reads_y).2 = Returned not_authorised
  /\ (lambda_handler cfg E_up student_x_reads_absent).2 = Returned not_found
  /\ statusCode not_authorised <> statusCode not_found.
Proof.
  split; [vm_compute; reflexivity|]. split; [vm_compute; reflexivity|].
  vm_compute. discriminate.
Qed.

(** C6, amended. For identified callers, a refused access is answered with
    the 403 response and an absent record with the 404 response; the two
    differ in status code and in message, so the caller can tell them
    apart. *)
Theorem C6_forbidden_and_not_found_differ cfg E ev_denied ev_absent item :
  path_id ev_denied <> [] ->
  sub (_extract_user_info ev_denied) <> [] ->
  dynamodb_get_item E (SUBMISSIONS_TABLE cfg) (path_id ev_denied)
    = GetItemOutput (Some item) ->
  item <> ∅ ->
  Spec.access_decision (Spec.group_memberships (groups (_extract_user_info ev_denied)))
    (sub (_extract_user_info ev_denied)) (record_owner item) = Spec.Deny ->
  path_id ev_absent <> [] ->
  sub (_extract_user_info ev_absent) <> [] ->
  dynamodb_get_item E (SUBMISSIONS_TABLE cfg) (path_id ev_absent) = GetItemOutput None ->
  (lambda_handler cfg E ev_denied).2 = Returned not_authorised
  /\ (lambda_handler cfg E ev_absent).2 = Returned not_found
  /\ statusCode not_authorised = 403
  /\ statusCode not_found = 404
  /\ body not_authorised <> body not_found.
Proof.
  intros Hid Hsub Hget Hne Hdeny Hid' Hsub' Hget'.
  rewrite (reader_identified cfg E ev_denied Hid Hsub), Hget,
    (bool_decide_eq_false_2 _ Hne), authorise_decision, Hdeny.
  rewrite (reader_identified cfg E ev_absent Hid' Hsub'), Hget'.
  repeat split.
  intros Heq. apply (f_equal (fun m => m !! u "error")) in Heq.
  vm_compute in Heq. discriminate.
Qed.

(** Student x reading the record of student y, and student x reading an
    absent record. *)
Lemma C6_forbidden_and_not_found_differ_witness :
  (lambda_handler cfg E_up student_x_reads_y).2 = Returned not_authorised
  /\ (lambda_handler cfg E_up student_x_reads_absent).2 = Returned not_found
  /\ statusCode not_authorised = 403
  /\ statusCode not_found = 404
  /\ body not_authorised <> body not_found.
Proof.
  apply (C6_forbidden_and_not_found_differ cfg E_up student_x_reads_y
           student_x_reads_absent item_y).
  - vm_compute. discriminate.
  - vm_compute. discriminate.
  - vm_compute. reflexivity.
  - intros Heq. apply (f_equal (fun m => m !! u "student_id")) in Heq.
    vm_compute in Heq. discriminate.
  - vm_compute. reflexivity.
  - vm_compute. discriminate.
  - vm_compute. discriminate.
  - vm_compute. reflexivity.
Defined.

(** In the reader a [ClientError] of the audit invocation is logged and
    swallowed: the caller gets the response of a successful notification. *)
Lemma reader_audit_client_error_swallowed cfg E E' ev :
  dynamodb_get_item E' = dynamodb_get_item E ->
  lambda_invoke E (AUDIT_FUNCTION_NAME cfg) (access_payload ev) = None ->
  lambda_invoke E' (AUDIT_FUNCTION_NAME cfg) (access_payload ev) = Some ClientError ->
  path_id ev <> [] ->
  sub (_extract_user_info ev) <> [] ->
  (lambda_handler cfg E' ev).2 = (lambda_handler cfg E ev).2.
Proof.
  intros Hget Hok Hfail Hid Hsub.
  rewrite !(reader_identified _ _ ev Hid Hsub), Hget, Hok, Hfail. reflexivity.
Qed.

(** C5 at the failing input. A faculty member reads a stored record; when
    the audit invocation succeeds the reader returns 200 with the
    sanitised record; when it raises an exception that is not a
    [ClientError] (here the endpoint cannot be reached) the exception
    leaves the handler and no response is returned. *)
Theorem C5_audit_failure_reaches_caller :
  (lambda_handler cfg E_up faculty_reads_y).2
    = Returned (_build_response 200 (sanitised item_y))
  /\ (lambda_handler cfg E_audit_unreachable faculty_reads_y).2
    = Propagated (BotoCoreError "EndpointConnectionError").
Proof. split; vm_compute; reflexivity. Qed.

End ReaderClaims.

(** ** The intake validator *)

Section Extension.
Import Py Flow Intake.

Lemma rfind_go_notin {A} `{EqDecision A} (c : A) (s : list A) (i found : Z) :
  c ∉ s -> rfind_go c s i found = found.
Proof.
  revert i found. induction s as [|x s IH]; intros i found Hnotin; [reflexivity|].
  apply not_elem_of_cons in Hnotin as [Hne Hnotin]. cbn.
  rewrite bool_decide_eq_false_2 by congruence. apply IH, Hnotin.
Qed.

Lemma rfind_go_last {A} `{EqDecision A} (c : A) (pre rest : list A) (i found : Z) :
  c ∉ rest ->
  rfind_go c (pre ++ c :: rest) i found = i + Z.of_nat (length pre).
Proof.
  intros Hnotin. revert i found.
  induction pre as [|x pre IH]; intros i found; cbn [app rfind_go length].
  - rewrite bool_decide_eq_true_2 by reflexivity.
    rewrite (rfind_go_notin c rest _ _ Hnotin). lia.
  - rewrite IH. lia.
Qed.

Lemma from_last_dot_None (s : str) :
  ValidatorSpec.from_last_dot s = None -> ch "." ∉ s.
Proof.
  induction s as [|c s IH]; cbn; [intros _; apply not_elem_of_nil|].
  destruct (ValidatorSpec.from_last_dot s); [discriminate|].
  case_bool_decide as Hc; [discriminate|]. intros _.
  apply not_elem_of_cons. split; [congruence|]. apply IH. reflexivity.
Qed.

Lemma from_last_dot_Some (s suffix : str) :
  ValidatorSpec.from_last_dot s = Some suffix ->
  exists pre rest, s = pre ++ ch "." :: rest /\ suffix = ch "." :: rest /\ ch "." ∉ rest.
Proof.
  revert suffix. induction s as [|c s IH]; cbn; [discriminate|]. intros suffix.
  destruct (ValidatorSpec.from_last_dot s) as [suf|] eqn:Hs.
  - intros [= <-]. destruct (IH suf eq_refl) as (pre & rest & -> & -> & Hnotin).
    exists (c :: pre), rest. auto.
  - case_bool_decide as Hc; [|discriminate]. intros [= <-]. subst c.
    exists [], s. split; [reflexivity|]. split; [reflexivity|].
    apply from_last_dot_None, Hs.
Qed.

(** The suffix from the last dot is unique. *)
Lemma from_last_dot_app (pre rest : str) :
  ch "." ∉ rest ->
  ValidatorSpec.from_last_dot (pre ++ ch "." :: rest) = Some (ch "." :: rest).
Proof.
  intros Hnotin. induction pre as [|x pre IH]; cbn.
  - destruct (ValidatorSpec.from_last_dot rest) as [suf|] eqn:Hs.
    + apply from_last_dot_Some in Hs as (p & r & -> & _ & _).
      exfalso. apply Hnotin. apply elem_of_app. right. apply elem_of_cons. auto.
    + rewrite bool_decide_eq_true_2 by reflexivity. reflexivity.
  - cbn in IH. rewrite IH. reflexivity.
Qed.

(** [_get_extension] computes the extension of the specification. *)
Lemma get_extension_spec (E : env) (fname : str) :
  _get_extension E fname = ValidatorSpec.extension (lower (unicode_lower E)) fname.
Proof.
  unfold _get_extension, ValidatorSpec.extension, rfind.
  destruct (ValidatorSpec.from_last_dot fname) as [suffix|] eqn:Hs.
  - apply from_last_dot_Some in Hs as (pre & rest & -> & -> & Hnotin).
    rewrite (rfind_go_last _ _ _ _ _ Hnotin).
    rewrite bool_decide_eq_false_2 by lia.
    replace (Z.to_nat (0 + Z.of_nat (length pre))) with (length pre) by lia.
    rewrite drop_app_length. reflexivity.
  - apply from_last_dot_None in Hs.
    rewrite (rfind_go_notin _ _ _ _ Hs).
    rewrite bool_decide_eq_true_2 by reflexivity. reflexivity.
Qed.

End Extension.

Section Validator.
Import Py Flow Intake.

Lemma decoded_field_identifier parts key v :
  identifier parts key v -> decoded_field parts key = Next v.
Proof.
  intros (p & s & Hp & Hs & <-). unfold decoded_field, getitem.
  rewrite Hp. cbn. rewrite Hs. reflexivity.
Qed.

Lemma check_required_present parts :
  is_Some (parts !! u "student_id") ->
  is_Some (parts !! u "course_id") ->
  is_Some (parts !! u "section_id") ->
  check_required parts [u "student_id"; u "course_id"; u "section_id"] = Next tt.
Proof. intros [? H1] [? H2] [? H3]. cbn. rewrite H1, H2, H3. reflexivity. Qed.

Lemma identifier_present parts key v :
  identifier parts key v -> is_Some (parts !! key).
Proof. intros (p & s & Hp & _). eauto. Qed.

(** What validation does once the file part and the three identifiers
    have been read. *)
Lemma validate_decoded cfg E parts file fname sid cid secid :
  parts !! u "file" = Some file ->
  filename file = Some fname ->
  identifier parts (u "student_id") sid ->
  identifier parts (u "course_id") cid ->
  identifier parts (u "section_id") secid ->
  validate cfg E parts =
    let ext := _get_extension E fname in
    let size := Z.of_nat (length (value file)) in
    if bool_decide (sid = []) || bool_decide (cid = []) || bool_decide (secid = []) then
      Return (ValidatorSpec.rejection_response ValidatorSpec.EmptyIdentifier)
    else if negb (member ext ALLOWED_EXTENSIONS) then
      Return (ValidatorSpec.rejection_response (ValidatorSpec.DisallowedExtension ext))
    else if bool_decide (size > MAX_FILE_SIZE cfg) then
      Return (ValidatorSpec.rejection_response
                (ValidatorSpec.FileTooLarge size (MAX_FILE_SIZE cfg)))
    else Next {| file_content := value file;
                 original_filename := fname;
                 student_id := sid;
                 course_id := cid;
                 section_id := secid;
                 extension := ext;
                 file_size := size |}.
Proof.
  intros Hfile Hname Hs Hc Hx.
  unfold validate. rewrite Hfile, Hname.
  rewrite check_required_present by (eapply identifier_present; eassumption).
  cbn [obind].
  rewrite (decoded_field_identifier _ _ _ Hs), (decoded_field_identifier _ _ _ Hc),
    (decoded_field_identifier _ _ _ Hx).
  reflexivity.
Qed.

(** What validation does once the field checks have passed. *)
Lemma validate_after_fields cfg E parts file fname sid cid secid :
  passes_field_checks parts file fname sid cid secid ->
  validate cfg E parts =
    let ext := _get_extension E fname in
    let size := Z.of_nat (length (value file)) in
    if negb (member ext ALLOWED_EXTENSIONS) then
      Return (ValidatorSpec.rejection_response (ValidatorSpec.DisallowedExtension ext))
    else if bool_decide (size > MAX_FILE_SIZE cfg) then
      Return (ValidatorSpec.rejection_response
                (ValidatorSpec.FileTooLarge size (MAX_FILE_SIZE cfg)))
    else Next {| file_content := value file;
                 original_filename := fname;
                 student_id := sid;
                 course_id := cid;
                 section_id := secid;
                 extension := ext;
                 file_size := size |}.
Proof.
  intros (Hfile & Hname & Hs & Hsne & Hc & Hcne & Hx & Hxne).
  rewrite (validate_decoded cfg E parts file fname sid cid secid) by assumption.
  cbn zeta. rewrite !bool_decide_eq_false_2 by assumption. reflexivity.
Qed.

End Validator.

Section CheckOrder.
Import Py Flow Intake.

Lemma verdict_missing_file cfg E parts :
  parts !! u "file" ≫= filename = None ->
  ValidatorSpec.verdict cfg E parts = Some ValidatorSpec.MissingFile.
Proof.
  intros H. unfold ValidatorSpec.verdict, ValidatorSpec.checks, ValidatorSpec.first_failing,
    ValidatorSpec.check_file.
  rewrite H. reflexivity.
Qed.

(** C3, amended. For every decoded part mapping in which the identifier
    values are valid UTF-8 whenever the file part (with a filename) and
    the three identifier parts are present, validation returns the
    rejection of the first failing check in the fixed order missing-file,
    missing-required-field (student_id, course_id, section_id),
    empty-identifier-after-trim, disallowed-extension, file-too-large, and
    accepts when no check fails. The hypothesis is void when a required
    part is missing, so for every combination of missing required fields
    the first violated check is the one reported. *)
Theorem C3_first_failing_check_wins cfg E parts :
  (ValidatorSpec.check_file parts = None ->
   ValidatorSpec.check_fields parts = None ->
   ValidatorSpec.identifiers_decodable parts) ->
  match ValidatorSpec.verdict cfg E parts with
  | Some r => validate cfg E parts = Return (ValidatorSpec.rejection_response r)
  | None => exists v, validate cfg E parts = Next v
  end.
Proof.
  intros Hdec.
  destruct (parts !! u "file") as [file|] eqn:Hfile;
    [destruct (filename file) as [fname|] eqn:Hname|].
  2:{ rewrite verdict_missing_file by (rewrite Hfile; exact Hname).
      unfold validate. rewrite Hfile, Hname. reflexivity. }
  2:{ rewrite verdict_missing_file by (rewrite Hfile; reflexivity).
      unfold validate. rewrite Hfile. reflexivity. }
  assert (Hcf : ValidatorSpec.check_file parts = None).
  { unfold ValidatorSpec.check_file. rewrite Hfile. cbn. rewrite Hname. reflexivity. }
  specialize (Hdec Hcf).
  unfold ValidatorSpec.verdict, ValidatorSpec.checks, ValidatorSpec.first_failing.
  rewrite Hcf. cbn [omap id].
  unfold ValidatorSpec.check_fields, ValidatorSpec.required_fields, ValidatorSpec.absent in *.
  cbn [List.find] in *.
  destruct (parts !! u "student_id") as [p1|] eqn:H1;
    [|unfold validate; rewrite Hfile, Hname; cbn; rewrite H1; reflexivity].
  destruct (parts !! u "course_id") as [p2|] eqn:H2;
    [|unfold validate; rewrite Hfile, Hname; cbn; rewrite H1, H2; reflexivity].
  destruct (parts !! u "section_id") as [p3|] eqn:H3;
    [|unfold validate; rewrite Hfile, Hname; cbn; rewrite H1, H2, H3; reflexivity].
  specialize (Hdec eq_refl).
  destruct (Hdec (u "student_id") p1) as [s1 Hs1]; [set_solver|exact H1|].
  destruct (Hdec (u "course_id") p2) as [s2 Hs2]; [set_solver|exact H2|].
  destruct (Hdec (u "section_id") p3) as [s3 Hs3]; [set_solver|exact H3|].
  rewrite (validate_decoded cfg E parts file fname (strip s1) (strip s2) (strip s3))
    by (try assumption; eexists _, _; eauto).
  unfold ValidatorSpec.check_identifiers, ValidatorSpec.check_extension,
    ValidatorSpec.check_size, ValidatorSpec.required_fields.
  cbn [existsb]. rewrite H1, H2, H3, Hfile. cbn [mbind option_bind].
  rewrite Hs1, Hs2, Hs3, Hname, <- get_extension_spec.
  rewrite orb_false_r, orb_assoc. cbn zeta.
  destruct (bool_decide (strip s1 = []) || bool_decide (strip s2 = [])
            || bool_decide (strip s3 = [])); [reflexivity|].
  destruct (member (_get_extension E fname) ALLOWED_EXTENSIONS); [|reflexivity].
  destruct (bool_decide (Z.of_nat (length (value file)) > MAX_FILE_SIZE cfg));
    [reflexivity|].
  cbn. eauto.
Qed.
End CheckOrder.

Section ValidatorClaims.
Import Py Flow Intake Examples.Up.

(** C3, as stated, fails: with a student_id that is not valid UTF-8 and a
    disallowed extension, the first failing check is the extension check,
    yet validation raises while reading the identifiers and returns no
    rejection. *)
Lemma C3_counterexample :
  ValidatorSpec.verdict cfg E_up exe_bad_utf8_parts
    = Some (ValidatorSpec.DisallowedExtension (u ".exe"))
  /\ validate cfg E_up exe_bad_utf8_parts = Raise UnicodeDecodeError
  /\ validate cfg E_up exe_bad_utf8_parts
     <> Return (ValidatorSpec.rejection_response
                  (ValidatorSpec.DisallowedExtension (u ".exe"))).
Proof.
  split; [vm_compute; reflexivity|].
  assert (H : validate cfg E_up exe_bad_utf8_parts = Raise UnicodeDecodeError)
    by (vm_compute; reflexivity).
  split; [exact H|]. rewrite H. discriminate.
Qed.

(** With student_id and section_id both missing, the report names
    student_id. *)
Lemma C3_first_failing_check_wins_witness :
  (ValidatorSpec.check_file two_missing_parts = None ->
   ValidatorSpec.check_fields two_missing_parts = None ->
   ValidatorSpec.identifiers_decodable two_missing_parts)
  /\ validate cfg E_up two_missing_parts
     = Return (ValidatorSpec.rejection_response
                 (ValidatorSpec.MissingField (u "student_id"))).
Proof.
  assert (H : ValidatorSpec.check_file two_missing_parts = None ->
              ValidatorSpec.check_fields two_missing_parts = None ->
              ValidatorSpec.identifiers_decodable two_missing_parts).
  { intros _ Hfields. vm_compute in Hfields. discriminate. }
  split; [exact H|].
  exact (C3_first_failing_check_wins cfg E_up two_missing_parts H).
Defined.

Lemma homework_passes_field_checks :
  passes_field_checks homework_parts homework_file (u "homework.pdf")
    (u "stu-001") (u "CS101") (u "A").
Proof.
  split; [vm_compute; reflexivity|]. split; [reflexivity|].
  split; [exists (text_part (b "stu-001")), (u "stu-001"); repeat split; vm_compute; reflexivity|].
  split; [vm_compute; discriminate|].
  split; [exists (text_part (b "CS101")), (u "CS101"); repeat split; vm_compute; reflexivity|].
  split; [vm_compute; discriminate|].
  split; [exists (text_part (b "A")), (u "A"); repeat split; vm_compute; reflexivity|].
  vm_compute; discriminate.
Qed.

(** C8. For a file payload that passes the earlier checks (file and
    fields present, identifiers non-empty, extension allowed): a length
    above the ceiling is rejected with the 413 payload-too-large response,
    a length within the ceiling is accepted; in particular a payload of
    exactly the ceiling is accepted and one byte more is rejected. *)
Theorem C8_size_ceiling cfg E parts file fname sid cid secid :
  passes_field_checks parts file fname sid cid secid ->
  member (_get_extension E fname) ALLOWED_EXTENSIONS = true ->
  let size := Z.of_nat (length (value file)) in
  let too_large :=
    ValidatorSpec.rejection_response (ValidatorSpec.FileTooLarge size (MAX_FILE_SIZE cfg)) in
  statusCode too_large = 413
  /\ (size > MAX_FILE_SIZE cfg -> validate cfg E parts = Return too_large)
  /\ (size <= MAX_FILE_SIZE cfg ->
      exists v, validate cfg E parts = Next v /\ file_content v = value file
                /\ file_size v = size)
  /\ (size = MAX_FILE_SIZE cfg -> exists v, validate cfg E parts = Next v)
  /\ (size = MAX_FILE_SIZE cfg + 1 -> validate cfg E parts = Return too_large).
Proof.
  intros Hpass Hext size too_large.
  rewrite (validate_after_fields cfg E parts file fname sid cid secid Hpass).
  cbn zeta. rewrite Hext. cbn [negb]. fold size.
  split; [reflexivity|].
  split; [intros Hgt; rewrite bool_decide_eq_true_2 by exact Hgt; reflexivity|].
  split; [intros Hle; rewrite bool_decide_eq_false_2 by lia; eauto|].
  split; [intros Heq; rewrite bool_decide_eq_false_2 by lia; eauto|].
  intros Heq. rewrite bool_decide_eq_true_2 by lia. reflexivity.
Qed.

(** An eight-byte file under a ceiling of eight bytes is accepted. *)
Lemma C8_size_ceiling_witness :
  passes_field_checks homework_parts homework_file (u "homework.pdf")
    (u "stu-001") (u "CS101") (u "A")
  /\ member (_get_extension E_up (u "homework.pdf")) ALLOWED_EXTENSIONS = true
  /\ Z.of_nat (length (value homework_file)) = MAX_FILE_SIZE cfg
  /\ exists v, validate cfg E_up homework_parts = Next v.
Proof.
  assert (Hext : member (_get_extension E_up (u "homework.pdf")) ALLOWED_EXTENSIONS = true)
    by (vm_compute; reflexivity).
  assert (Hsize : Z.of_nat (length (value homework_file)) = MAX_FILE_SIZE cfg)
    by reflexivity.
  split; [exact homework_passes_field_checks|]. split; [exact Hext|].
  split; [exact Hsize|].
  destruct (C8_size_ceiling cfg E_up homework_parts homework_file (u "homework.pdf")
              (u "stu-001") (u "CS101") (u "A") homework_passes_field_checks Hext)
    as (_ & _ & _ & Hat & _).
  exact (Hat Hsize).
Defined.

(** Every allow-listed extension is a dot followed by ASCII characters
    other than the dot. *)
Lemma allowed_extension_shape (e : str) :
  e ∈ ALLOWED_EXTENSIONS ->
  exists rest, e = (ch "." :: rest) /\ (ch "." ∉ rest) /\ forallb is_ascii e = true.
Proof.
  unfold ALLOWED_EXTENSIONS. intros Hin.
  repeat (apply elem_of_cons in Hin as [->|Hin];
          [eexists; split; [reflexivity|]; split;
           [apply (bool_decide_unpack _); vm_compute; reflexivity|vm_compute; reflexivity]|]).
  apply elem_of_nil in Hin. contradiction.
Qed.

Lemma lower_ascii_is_ascii (c : N) : is_ascii (lower_ascii c) = true -> is_ascii c = true.
Proof.
  unfold is_ascii, lower_ascii.
  destruct ((65 <=? c)%N && (c <=? 90)%N) eqn:Hup; [|auto].
  intros _. apply andb_true_iff in Hup as [_ Hle].
  apply N.leb_le in Hle. apply N.ltb_lt. lia.
Qed.

Lemma lower_ascii_dot (c : N) : lower_ascii c = ch "." <-> c = ch ".".
Proof.
  unfold lower_ascii.
  destruct ((65 <=? c)%N && (c <=? 90)%N) eqn:Hup; [|tauto].
  apply andb_true_iff in Hup as [Hge Hle].
  apply N.leb_le in Hge, Hle. change (ch ".") with 46%N. lia.
Qed.

(** A spelling of an allow-listed extension in any letter case is
    lower-cased to that extension. *)
Lemma lower_case_variant (unicode_lower : str -> str) (e variant : str) :
  e ∈ ALLOWED_EXTENSIONS ->
  lower_ascii <$> variant = e ->
  lower unicode_lower variant = e
  /\ exists rest, variant = (ch "." :: rest) /\ ch "." ∉ rest.
Proof.
  intros He Hv. apply allowed_extension_shape in He as (rest & -> & Hnodot & Hascii).
  assert (Hva : forallb is_ascii variant = true).
  { rewrite <- Hv in Hascii. rewrite forallb_forall in Hascii |- *.
    intros c Hc. apply lower_ascii_is_ascii, Hascii.
    apply in_map. exact Hc. }
  split; [unfold lower; rewrite Hva; exact Hv|].
  destruct variant as [|c vrest]; [discriminate|].
  cbn in Hv. injection Hv as Hc Hrest. apply lower_ascii_dot in Hc as ->.
  exists vrest. split; [reflexivity|].
  intros Hin. apply Hnodot. rewrite <- Hrest.
  apply list_elem_of_fmap. exists (ch "."). split; [|exact Hin].
  symmetry. apply lower_ascii_dot. reflexivity.
Qed.

(** C9. The extension of a filename is the substring from its last dot,
    lower-cased, and the empty string when it has no dot. For a part
    mapping that passes the field checks, an extension outside the
    allow-list is rejected with the 400 disallowed-extension response, an
    extension in it is not; and a filename that ends in any letter-case
    spelling of an allow-listed extension is accepted (its size being
    within the ceiling), with the lower-cased extension stored. *)
Theorem C9_extension_allow_list cfg E parts file fname sid cid secid :
  passes_field_checks parts file fname sid cid secid ->
  let ext := _get_extension E fname in
  let disallowed :=
    ValidatorSpec.rejection_response (ValidatorSpec.DisallowedExtension ext) in
  (ch "." ∉ fname -> ext = [])
  /\ (forall stem rest, fname = stem ++ ch "." :: rest -> ch "." ∉ rest ->
      ext = lower (unicode_lower E) (ch "." :: rest))
  /\ statusCode disallowed = 400
  /\ (ext ∉ ALLOWED_EXTENSIONS -> validate cfg E parts = Return disallowed)
  /\ (ext ∈ ALLOWED_EXTENSIONS -> validate cfg E parts <> Return disallowed)
  /\ (forall e stem variant,
        e ∈ ALLOWED_EXTENSIONS ->
        lower_ascii <$> variant = e ->
        fname = stem ++ variant ->
        ext = e
        /\ (Z.of_nat (length (value file)) <= MAX_FILE_SIZE cfg ->
            exists v, validate cfg E parts = Next v /\ extension v = e)).
Proof.
  intros Hpass ext disallowed.
  assert (Hext_dot : forall stem rest, fname = stem ++ ch "." :: rest -> ch "." ∉ rest ->
                     ext = lower (unicode_lower E) (ch "." :: rest)).
  { intros stem rest -> Hnodot. unfold ext. rewrite get_extension_spec.
    unfold ValidatorSpec.extension. rewrite (from_last_dot_app _ _ Hnodot). reflexivity. }
  pose proof (validate_after_fields cfg E parts file fname sid cid secid Hpass) as Hval.
  cbn zeta in Hval. fold ext in Hval. unfold member in Hval.
  split.
  { intros Hnodot. unfold ext. rewrite get_extension_spec.
    unfold ValidatorSpec.extension.
    destruct (ValidatorSpec.from_last_dot fname) as [suffix|] eqn:Hs; [|reflexivity].
    apply from_last_dot_Some in Hs as (pre & rest & -> & _ & _).
    exfalso. apply Hnodot. apply elem_of_app. right. apply elem_of_cons. auto. }
  split; [exact Hext_dot|]. split; [reflexivity|].
  split.
  { intros Hnot. rewrite Hval, (bool_decide_eq_false_2 _ Hnot). reflexivity. }
  split.
  { intros Hin. rewrite Hval, (bool_decide_eq_true_2 _ Hin). cbn [negb].
    destruct (bool_decide (_ > _)); intros Heq; [|discriminate Heq].
    injection Heq as Heq. discriminate Heq. }
  intros e stem variant He Hv ->.
  destruct (lower_case_variant (unicode_lower E) e variant He Hv)
    as (Hlow & rest & -> & Hnodot).
  assert (Hext : ext = e) by (rewrite (Hext_dot stem rest eq_refl Hnodot); exact Hlow).
  split; [exact Hext|].
  intros Hsize. rewrite Hval, Hext, (bool_decide_eq_true_2 _ He). cbn [negb].
  rewrite bool_decide_eq_false_2 by lia. eauto.
Qed.

Lemma upper_case_passes_field_checks :
  passes_field_checks upper_case_parts upper_case_file (u "Report.PDF")
    (u "stu-001") (u "CS101") (u "A").
Proof.
  split; [vm_compute; reflexivity|]. split; [reflexivity|].
  split; [exists (text_part (b "stu-001")), (u "stu-001"); repeat split; vm_compute; reflexivity|].
  split; [vm_compute; discriminate|].
  split; [exists (text_part (b "CS101")), (u "CS101"); repeat split; vm_compute; reflexivity|].
  split; [vm_compute; discriminate|].
  split; [exists (text_part (b "A")), (u "A"); repeat split; vm_compute; reflexivity|].
  vm_compute; discriminate.
Qed.

(** Report.PDF is accepted and stored with the extension .pdf. *)
Lemma C9_extension_allow_list_witness :
  passes_field_checks upper_case_parts upper_case_file (u "Report.PDF")
    (u "stu-001") (u "CS101") (u "A")
  /\ _get_extension E_up (u "Report.PDF") = u ".pdf"
  /\ exists v, validate cfg E_up upper_case_parts = Next v /\ extension v = u ".pdf".
Proof.
  split; [exact upper_case_passes_field_checks|].
  destruct (C9_extension_allow_list cfg E_up upper_case_parts upper_case_file
              (u "Report.PDF") (u "stu-001") (u "CS101") (u "A")
              upper_case_passes_field_checks)
    as (_ & _ & _ & _ & _ & Hcase).
  destruct (Hcase (u ".pdf") (u "Report") (u ".PDF")) as [Hext Hacc].
  - apply (bool_decide_unpack _). vm_compute. reflexivity.
  - vm_compute. reflexivity.
  - vm_compute. reflexivity.
  - split; [exact Hext|]. apply Hacc. vm_compute. discriminate.
Defined.

End ValidatorClaims.

(** ** The intake pipeline *)

Section Pipeline.
Import Py Flow Intake.

Lemma store_eq cfg E user_id email v :
  store cfg E user_id email v =
    let put := S3PutObject (RAW_BUCKET cfg) (s3_key E v) (file_content v)
                 (u "application/octet-stream") (s3_metadata E v) in
    let record := DynamoPutItem (SUBMISSIONS_TABLE cfg)
                    (submission_item cfg E user_id email v) in
    match s3_put_object E (RAW_BUCKET cfg) (s3_key E v) (file_content v) with
    | Fails _ =>
        ([Log INFO (u "Processing submission"); put; Log ERROR (u "S3 upload failed")],
         Return upload_failed)
    | Succeeds =>
        match dynamodb_put_item E (SUBMISSIONS_TABLE cfg)
                (submission_item cfg E user_id email v) with
        | Fails _ =>
            ([Log INFO (u "Processing submission"); put; record;
              Log ERROR (u "DynamoDB write failed")],
             Return record_failed)
        | Succeeds =>
            ([Log INFO (u "Processing submission"); put; record]
             ++ audit_trace cfg E user_id email v
             ++ [Log INFO (u "Submission processed successfully")],
             Next (success_response E v))
        end
    end.
Proof.
  unfold store, audit_trace.
  destruct (s3_put_object E _ _ _); [|reflexivity].
  destruct (dynamodb_put_item E _ _); [|reflexivity].
  destruct (bool_decide (AUDIT_FUNCTION_NAME cfg = [])); [reflexivity|].
  destruct (lambda_invoke E _ _); reflexivity.
Qed.

Lemma decode_body_trace E ev : (decode_body E ev).1 = [].
Proof.
  unfold decode_body. case_bool_decide; [reflexivity|].
  destruct (isBase64Encoded ev); [|reflexivity].
  destruct (b64decode E (event_body ev)); reflexivity.
Qed.


Lemma parse_body_cases ev body_bytes :
  (exists parts, parse_body ev body_bytes = ([], Next parts))
  \/ (exists t r, parse_body ev body_bytes = (t, Return r)
                  /\ calls t = [] /\ statusCode r = 400).
Proof.
  unfold parse_body. destruct (negb _).
  - right. eexists _, _. split; [reflexivity|]. split; reflexivity.
  - destruct (_parse_multipart _ body_bytes) as [exc|parts].
    + right. eexists _, _. split; [reflexivity|]. split; reflexivity.
    + left. eauto.
Qed.


Lemma check_required_not_raise parts fields e :
  check_required parts fields <> Raise e.
Proof.
  induction fields as [|f fields IH]; cbn; [discriminate|].
  destruct (parts !! f); [exact IH|discriminate].
Qed.

Lemma decoded_field_not_return parts key r :
  decoded_field parts key <> Return r.
Proof.
  unfold decoded_field, getitem.
  destruct (parts !! key) as [p|]; cbn; [|discriminate].
  destruct (decode (value p)); discriminate.
Qed.


(** The handler after successful decoding: it is driven by validation and,
    when that accepts, by the storage steps. *)
Lemma handler_after_decoding cfg E ev parts :
  decoded_parts E ev = Some parts ->
  lambda_handler cfg E ev =
    match validate cfg E parts with
    | Return r => ([Log INFO (u "Intake request received")], r)
    | Raise _ =>
        ([Log INFO (u "Intake request received");
          Log ERROR (u "Unhandled exception in intake-handler")],
         internal_error)
    | Next v =>
        let user_id := default (u "anonymous") (claims ev !! u "sub") in
        let email := default (u "unknown") (claims ev !! u "email") in
        (Log INFO (u "Intake request received") :: (store cfg E user_id email v).1,
         match (store cfg E user_id email v).2 with
         | Next r => r
         | Return r => r
         | Raise _ => internal_error
         end)
    end.
Proof.
  unfold decoded_parts, lambda_handler, try_block.
  case_bool_decide as Hopt; [discriminate|].
  pose proof (decode_body_trace E ev) as Ht.
  destruct (decode_body E ev) as [t1 [body_bytes|r1|e1]]; cbn in Ht |- *;
    try discriminate.
  subst t1.
  destruct (parse_body_cases ev body_bytes) as [(parts' & Hp)|(t & r & Hp & _)];
    rewrite Hp; cbn; [|discriminate].
  intros [= ->].
  destruct (validate cfg E parts) as [v|r|e]; cbn; [|reflexivity..].
  rewrite store_eq. cbn zeta.
  destruct (s3_put_object E _ _ _); [|reflexivity].
  destruct (dynamodb_put_item E _ _); reflexivity.
Qed.

End Pipeline.

Section IntakeClaims.
Import Py Flow Intake Examples.Up.









End IntakeClaims.

Section UndecodableIdentifier.
Import Py Flow Intake Examples.Up.

Lemma check_file_None parts :
  ValidatorSpec.check_file parts = None ->
  exists file fname, parts !! u "file" = Some file /\ filename file = Some fname.
Proof.
  unfold ValidatorSpec.check_file.
  destruct (parts !! u "file") as [file|]; cbn; [|discriminate].
  destruct (filename file) as [fname|] eqn:Hname; [|discriminate]. eauto.
Qed.

Lemma check_fields_None parts :
  ValidatorSpec.check_fields parts = None ->
  exists p1 p2 p3,
    parts !! u "student_id" = Some p1 /\ parts !! u "course_id" = Some p2
    /\ parts !! u "section_id" = Some p3.
Proof.
  unfold ValidatorSpec.check_fields, ValidatorSpec.required_fields, ValidatorSpec.absent.
  cbn [List.find].
  destruct (parts !! u "student_id"); [|discriminate].
  destruct (parts !! u "course_id"); [|discriminate].
  destruct (parts !! u "section_id"); [|discriminate]. eauto 7.
Qed.

(** Validation raises when an identifier cannot be decoded, once the file
    and the three fields are present. *)
Lemma validate_undecodable cfg E parts name p :
  ValidatorSpec.check_file parts = None ->
  ValidatorSpec.check_fields parts = None ->
  name ∈ ValidatorSpec.required_fields ->
  parts !! name = Some p ->
  decode (value p) = None ->
  validate cfg E parts = Raise UnicodeDecodeError.
Proof.
  intros Hfile Hfields Hname Hp Hdec.
  apply check_file_None in Hfile as (file & fname & Hfile & Hfname).
  apply check_fields_None in Hfields as (p1 & p2 & p3 & H1 & H2 & H3).
  unfold validate. rewrite Hfile, Hfname.
  rewrite check_required_present by eauto. cbn [obind].
  unfold decoded_field, getitem. rewrite H1, H2, H3. cbn [obind].
  unfold ValidatorSpec.required_fields in Hname.
  apply elem_of_cons in Hname as [->|Hname];
    [|apply elem_of_cons in Hname as [->|Hname];
      [|apply elem_of_cons in Hname as [->|Hname];
        [|apply elem_of_nil in Hname; contradiction]]].
  - rewrite H1 in Hp. injection Hp as <-. rewrite Hdec. reflexivity.
  - rewrite H2 in Hp. injection Hp as <-. rewrite Hdec.
    destruct (decode (value p1)); reflexivity.
  - rewrite H3 in Hp. injection Hp as <-. rewrite Hdec.
    destruct (decode (value p1)); [|reflexivity].
    destruct (decode (value p2)); reflexivity.
Qed.

(** C10, as stated, fails: a request whose student_id part is not valid
    UTF-8 but which has no file part is rejected with 400 by the
    missing-file check, which comes before the identifiers are decoded. *)
Lemma C10_counterexample :
  exists parts,
    decoded_parts E_up upload_bad_utf8_no_file = Some parts
    /\ parts !! u "student_id" = Some (text_part [xff; xfe])
    /\ decode [xff; xfe] = None
    /\ (lambda_handler cfg E_up upload_bad_utf8_no_file).2
       = _build_response 400 (error_body (u "Missing required field: file")).
Proof.
  destruct (decoded_parts E_up upload_bad_utf8_no_file) as [parts|] eqn:Hparts;
    [|vm_compute in Hparts; discriminate].
  exists parts. split; [reflexivity|].
  assert (Hparts' := Hparts).
  vm_compute in Hparts'. injection Hparts' as <-.
  split; [vm_compute; reflexivity|]. split; [vm_compute; reflexivity|].
  vm_compute. reflexivity.
Qed.

(** C10, amended. For every intake request that is decoded into a part
    mapping with a file part carrying a filename and with the three
    identifier parts present, if the value of one of the identifiers is
    not valid UTF-8 the handler returns the generic internal-error
    response with status 500 through its top-level exception handler,
    not a 400 rejection, and calls no service. *)
Theorem C10_undecodable_identifier cfg E ev parts name p :
  decoded_parts E ev = Some parts ->
  ValidatorSpec.check_file parts = None ->
  ValidatorSpec.check_fields parts = None ->
  name ∈ ValidatorSpec.required_fields ->
  parts !! name = Some p ->
  decode (value p) = None ->
  lambda_handler cfg E ev =
    ([Log INFO (u "Intake request received");
      Log ERROR (u "Unhandled exception in intake-handler")],
     internal_error)
  /\ statusCode internal_error = 500
  /\ body internal_error = error_body (u "Internal server error")
  /\ calls (lambda_handler cfg E ev).1 = [].
Proof.
  intros Hparts Hfile Hfields Hname Hp Hdec.
  rewrite (handler_after_decoding cfg E ev parts Hparts).
  rewrite (validate_undecodable cfg E parts name p Hfile Hfields Hname Hp Hdec).
  repeat split.
Qed.

(** The upload of homework.pdf with the student_id bytes ff fe. *)
Lemma C10_undecodable_identifier_witness :
  exists parts,
    decoded_parts E_up upload_bad_utf8 = Some parts
    /\ ValidatorSpec.check_file parts = None
    /\ ValidatorSpec.check_fields parts = None
    /\ parts !! u "student_id" = Some (text_part [xff; xfe])
    /\ decode [xff; xfe] = None
    /\ (lambda_handler cfg E_up upload_bad_utf8).2 = internal_error.
Proof.
  destruct (decoded_parts E_up upload_bad_utf8) as [parts|] eqn:Hparts;
    [|vm_compute in Hparts; discriminate].
  exists parts.
  assert (Hfile : ValidatorSpec.check_file parts = None).
  { assert (Hparts' := Hparts). vm_compute in Hparts'. injection Hparts' as <-.
    vm_compute. reflexivity. }
  assert (Hfields : ValidatorSpec.check_fields parts = None).
  { assert (Hparts' := Hparts). vm_compute in Hparts'. injection Hparts' as <-.
    vm_compute. reflexivity. }
  assert (Hp : parts !! u "student_id" = Some (text_part [xff; xfe])).
  { assert (Hparts' := Hparts). vm_compute in Hparts'. injection Hparts' as <-.
    vm_compute. reflexivity. }
  assert (Hdec : decode (value (text_part [xff; xfe])) = None)
    by (vm_compute; reflexivity).
  assert (Hname : u "student_id" ∈ ValidatorSpec.required_fields).
  { apply elem_of_cons. left. reflexivity. }
  repeat (split; [first [reflexivity|assumption]|]).
  destruct (C10_undecodable_identifier cfg E_up upload_bad_utf8 parts
              (u "student_id") (text_part [xff; xfe])
              Hparts Hfile Hfields Hname Hp Hdec) as [Hres _].
  rewrite Hres. reflexivity.
Defined.

(** In the intake handler the outcome of the audit invocation never
    changes the response: every failure is caught, logged and dropped. *)
Lemma intake_audit_best_effort cfg E invoke ev :
  (lambda_handler cfg (with_lambda_invoke E invoke) ev).2 = (lambda_handler cfg E ev).2.
Proof.
  destruct (decoded_parts E ev) as [parts|] eqn:Hparts.
  - rewrite (handler_after_decoding cfg E ev parts Hparts).
    rewrite (handler_after_decoding cfg (with_lambda_invoke E invoke) ev parts Hparts).
    change (validate cfg (with_lambda_invoke E invoke) parts) with (validate cfg E parts).
    destruct (validate cfg E parts) as [v|r|e]; [|reflexivity..].
    cbn zeta. rewrite !store_eq. cbn zeta.
    change (s3_put_object (with_lambda_invoke E invoke)) with (s3_put_object E).
    change (dynamodb_put_item (with_lambda_invoke E invoke)) with (dynamodb_put_item E).
    destruct (s3_put_object E _ _ _); [|reflexivity].
    destruct (dynamodb_put_item E _ _); reflexivity.
  - unfold decoded_parts in Hparts. unfold lambda_handler, try_block.
    destruct (bool_decide (httpMethod ev = u "OPTIONS")); [reflexivity|].
    change (decode_body (with_lambda_invoke E invoke) ev) with (decode_body E ev).
    pose proof (decode_body_trace E ev) as Ht.
    destruct (decode_body E ev) as [t1 [body_bytes|r1|e1]]; cbn in Ht, Hparts |- *;
      subst t1; [|reflexivity..].
    destruct (parse_body_cases ev body_bytes) as [(parts & Hp)|(t & r & Hp & _)];
      rewrite Hp in Hparts |- *; cbn in Hparts |- *; [discriminate|reflexivity].
Qed.

(** When the audit invocation fails during a successful upload, the
    failure is logged. *)
Lemma intake_audit_failure_logged cfg E ev parts v what :
  decoded_parts E ev = Some parts ->
  validate cfg E parts = Next v ->
  s3_put_object E (RAW_BUCKET cfg) (s3_key E v) (file_content v) = Succeeds ->
  dynamodb_put_item E (SUBMISSIONS_TABLE cfg)
    (submission_item cfg E (default (u "anonymous") (claims ev !! u "sub"))
       (default (u "unknown") (claims ev !! u "email")) v) = Succeeds ->
  AUDIT_FUNCTION_NAME cfg <> [] ->
  lambda_invoke E (AUDIT_FUNCTION_NAME cfg)
    (upload_audit_payload E (default (u "anonymous") (claims ev !! u "sub"))
       (default (u "unknown") (claims ev !! u "email")) v) = Fails what ->
  Log ERROR (u "Failed to invoke audit-logger") ∈ (lambda_handler cfg E ev).1
  /\ (lambda_handler cfg E ev).2 = success_response E v.
Proof.
  intros Hparts Hval Hs3 Hdyn Hname Hinv.
  rewrite (handler_after_decoding cfg E ev parts Hparts), Hval.
  cbn zeta. rewrite store_eq. cbn zeta. rewrite Hs3, Hdyn.
  unfold audit_trace. rewrite (bool_decide_eq_false_2 _ Hname), Hinv.
  split; [|reflexivity].
  apply list_elem_of_lookup. exists 5%nat. reflexivity.
Qed.

End UndecodableIdentifier.

(** ** The multipart decoder *)

Section Search.
Import Py.

Lemma strip_prefix_Some {A} `{EqDecision A} (p s rest : list A) :
  strip_prefix p s = Some rest <-> s = p ++ rest.
Proof.
  revert s. induction p as [|x p IH]; intros s; cbn.
  - destruct s; split; congruence.
  - destruct s as [|y s]; [split; discriminate|].
    case_bool_decide as Hxy.
    + subst y. rewrite IH. split; [intros ->; reflexivity|congruence].
    + split; [discriminate|]. intros [= -> _]. contradiction.
Qed.

Lemma strip_prefix_app {A} `{EqDecision A} (p rest : list A) :
  strip_prefix p (p ++ rest) = Some rest.
Proof. apply strip_prefix_Some. reflexivity. Qed.



Lemma take_while_Forall {A} (p : A -> bool) (s : list A) :
  Forall (fun x => p x = true) (take_while p s).
Proof.
  induction s as [|c s IH]; cbn; [constructor|].
  destruct (p c) eqn:Hc; constructor; assumption.
Qed.

Lemma take_while_split {A} (p : A -> bool) (s : list A) :
  s = take_while p s ++ drop (length (take_while p s)) s.
Proof.
  induction s as [|c s IH]; cbn; [reflexivity|].
  destruct (p c); cbn; [f_equal; exact IH|reflexivity].
Qed.

End Search.

Section Decoder.
Import Py Flow Intake Examples.Up.





End Decoder.

Section DecoderClaims.
Import Py Flow Intake Examples.Up.








End DecoderClaims.

(** ** Further properties of the metadata reader *)

Section ReaderMore.
Import Py Flow Metadata Examples.Meta.

(** The trace of the reader for an identified caller. *)
Lemma reader_identified_trace cfg E ev :
  path_id ev <> [] ->
  sub (_extract_user_info ev) <> [] ->
  (lambda_handler cfg E ev).1 =
    [Log INFO (u "Received get-submission-metadata request");
     Log INFO (u "Fetching metadata for submission_id=%s");
     DynamoGetItem (SUBMISSIONS_TABLE cfg) (path_id ev)]
    ++ match dynamodb_get_item E (SUBMISSIONS_TABLE cfg) (path_id ev) with
       | GetItemRaises e =>
           if is_ClientError e
           then [Log ERROR (u "DynamoDB error while fetching submission %s")]
           else []
       | GetItemOutput None => [Log INFO (u "Submission %s not found")]
       | GetItemOutput (Some item) =>
           if bool_decide (item = ∅) then [Log INFO (u "Submission %s not found")]
           else
             (authorise (_extract_user_info ev) item).1
             ++ match (authorise (_extract_user_info ev) item).2 with
                | Next _ =>
                    LambdaInvoke (AUDIT_FUNCTION_NAME cfg) (u "Event") (access_payload ev)
                    :: match lambda_invoke E (AUDIT_FUNCTION_NAME cfg) (access_payload ev) with
                       | None =>
                           [Log INFO (u "Audit logger invoked asynchronously for submission %s");
                            Log INFO (u "Returning metadata for submission %s")]
                       | Some e =>
                           if is_ClientError e
                           then [Log ERROR (u "Failed to invoke audit logger");
                                 Log INFO (u "Returning metadata for submission %s")]
                           else []
                       end
                | _ => []
                end
       end.
Proof.
  intros Hid Hsub. unfold lambda_handler, handler_body, fetch, _invoke_audit_logger.
  rewrite (bool_decide_eq_false_2 _ Hid), (bool_decide_eq_false_2 _ Hsub).
  fold (access_payload ev).
  destruct (dynamodb_get_item E (SUBMISSIONS_TABLE cfg) (path_id ev)) as [[item|]|e];
    cbn.
  - case_bool_decide; [reflexivity|]. cbn.
    destruct (authorise (_extract_user_info ev) item) as [t [[]|r|e]]; cbn;
      [|rewrite ?app_nil_r; reflexivity..].
    destruct (lambda_invoke E (AUDIT_FUNCTION_NAME cfg) (access_payload ev)) as [[|n]|];
      reflexivity.
  - reflexivity.
  - destruct e; reflexivity.
Qed.

Lemma authorise_logs_only ui item f :
  f ∈ (authorise ui item).1 -> exists lvl msg, f = Log lvl msg.
Proof.
  unfold authorise.
  destruct (_ || _); [|destruct (_user_in_group ui (u "Students")); [destruct (negb _)|]];
    cbn; intros Hin;
    repeat (apply elem_of_cons in Hin as [->|Hin]; [eauto|]);
    apply elem_of_nil in Hin; contradiction.
Qed.


End ReaderMore.
Section ReaderExtras.
Import Py Flow Metadata Examples.Meta.


(** What the reader can end with, case by case. *)
Lemma reader_outcomes cfg E ev :
  let result := (lambda_handler cfg E ev).2 in
  result = Returned (_build_response 400
                       (error_body (u "Missing submission id in request path")))
  \/ result = Returned unidentified_caller
  \/ result = Returned internal_error
  \/ result = Returned not_found
  \/ result = Returned not_authorised
  \/ (exists e, is_ClientError e = false /\ result = Propagated e
                /\ (dynamodb_get_item E (SUBMISSIONS_TABLE cfg) (path_id ev) = GetItemRaises e
                    \/ lambda_invoke E (AUDIT_FUNCTION_NAME cfg) (access_payload ev) = Some e))
  \/ (exists item tier,
        path_id ev <> [] /\ sub (_extract_user_info ev) <> []
        /\ dynamodb_get_item E (SUBMISSIONS_TABLE cfg) (path_id ev)
           = GetItemOutput (Some item)
        /\ item <> ∅
        /\ Spec.access_decision
             (Spec.group_memberships (groups (_extract_user_info ev)))
             (sub (_extract_user_info ev)) (record_owner item) = Spec.Allow tier
        /\ (result = Returned (_build_response 200 (sanitised item))
            \/ exists e, is_ClientError e = false /\ result = Propagated e)).
Proof.
  intros result. subst result.
  destruct (decide (path_id ev = [])) as [Hid|Hid].
  { rewrite (reader_missing_id cfg E ev Hid). left. reflexivity. }
  destruct (decide (sub (_extract_user_info ev) = [])) as [Hsub|Hsub].
  { rewrite (reader_unidentified cfg E ev Hid Hsub). right. left. reflexivity. }
  rewrite (reader_identified cfg E ev Hid Hsub).
  destruct (dynamodb_get_item E (SUBMISSIONS_TABLE cfg) (path_id ev))
    as [[item|]|e] eqn:Hget.
  - case_bool_decide as Hempty; [do 3 right; left; reflexivity|].
    rewrite authorise_decision.
    destruct (Spec.access_decision _ _ _) as [tier|] eqn:Hd;
      [|do 4 right; left; reflexivity].
    destruct (lambda_invoke E (AUDIT_FUNCTION_NAME cfg) (access_payload ev)) as [e|] eqn:Hinv.
    + destruct (is_ClientError e) eqn:He.
      * do 6 right. exists item, tier. repeat (split; [assumption || reflexivity|]).
        left. reflexivity.
      * do 5 right. left. exists e. auto.
    + do 6 right. exists item, tier. repeat (split; [assumption || reflexivity|]).
      left. reflexivity.
  - do 3 right. left. reflexivity.
  - destruct (is_ClientError e) eqn:He; [do 2 right; left; reflexivity|].
    do 5 right. left. exists e. auto.
Qed.

(** X1. The reader answers 200 only to an identified caller whose access
    decision for the stored, non-empty record is Allow; the body is then
    the record without the internal fields. No other path of the handler
    returns the record. *)
Theorem X1_reader_200_only_when_allowed cfg E ev r :
  (lambda_handler cfg E ev).2 = Returned r ->
  statusCode r = 200 ->
  path_id ev <> []
  /\ sub (_extract_user_info ev) <> []
  /\ exists item tier,
       dynamodb_get_item E (SUBMISSIONS_TABLE cfg) (path_id ev)
         = GetItemOutput (Some item)
       /\ item <> ∅
       /\ Spec.access_decision
            (Spec.group_memberships (groups (_extract_user_info ev)))
            (sub (_extract_user_info ev)) (record_owner item) = Spec.Allow tier
       /\ body r = sanitised item.
Proof.
  intros Hres Hstatus.
  destruct (reader_outcomes cfg E ev)
    as [H|[H|[H|[H|[H|[(e & _ & H & _)|(item & tier & Hid & Hsub & Hget & Hne & Hd & H)]]]]]];
    try (rewrite H in Hres; injection Hres as <-; discriminate Hstatus);
    try (rewrite H in Hres; discriminate Hres).
  split; [exact Hid|]. split; [exact Hsub|]. exists item, tier.
  repeat (split; [assumption|]).
  destruct H as [H|(e & _ & H)]; rewrite H in Hres; [|discriminate Hres].
  injection Hres as <-. reflexivity.
Qed.

(** Student y reads the own record. *)
Lemma X1_reader_200_only_when_allowed_witness :
  (lambda_handler cfg E_up student_y_reads_y).2
    = Returned (_build_response 200 (sanitised item_y))
  /\ statusCode (_build_response 200 (sanitised item_y)) = 200
  /\ exists item tier,
       dynamodb_get_item E_up (SUBMISSIONS_TABLE cfg) (path_id student_y_reads_y)
         = GetItemOutput (Some item)
       /\ item <> ∅
       /\ Spec.access_decision
            (Spec.group_memberships (groups (_extract_user_info student_y_reads_y)))
            (sub (_extract_user_info student_y_reads_y)) (record_owner item)
          = Spec.Allow tier
       /\ body (_build_response 200 (sanitised item_y)) = sanitised item.
Proof.
  assert (Hres : (lambda_handler cfg E_up student_y_reads_y).2
                 = Returned (_build_response 200 (sanitised item_y)))
    by (vm_compute; reflexivity).
  split; [exact Hres|]. split; [reflexivity|].
  exact (proj2 (proj2 (X1_reader_200_only_when_allowed cfg E_up student_y_reads_y
                         _ Hres eq_refl))).
Defined.



(** X3. The audit function is invoked only for a granted access: an
    invocation in the trace belongs to an identified caller whose decision
    for the stored record is Allow, and it is the asynchronous ACCESS
    event of that caller and submission. Refused requests, requests for
    absent records and unidentified callers leave no audit event. *)
Theorem X3_audit_only_for_granted_access cfg E ev fn ty payload :
  LambdaInvoke fn ty payload ∈ (lambda_handler cfg E ev).1 ->
  fn = AUDIT_FUNCTION_NAME cfg /\ ty = u "Event" /\ payload = access_payload ev
  /\ event_type payload = u "ACCESS"
  /\ user_id payload = sub (_extract_user_info ev)
  /\ payload_submission_id payload = path_id ev
  /\ user_id payload <> [] /\ payload_submission_id payload <> []
  /\ exists item tier,
       dynamodb_get_item E (SUBMISSIONS_TABLE cfg) (path_id ev)
         = GetItemOutput (Some item)
       /\ Spec.access_decision
            (Spec.group_memberships (groups (_extract_user_info ev)))
            (sub (_extract_user_info ev)) (record_owner item) = Spec.Allow tier.
Proof.
  intros Hin.
  destruct (decide (path_id ev = [])) as [Hid|Hid].
  { rewrite (reader_missing_id cfg E ev Hid) in Hin. cbn in Hin.
    repeat (apply elem_of_cons in Hin as [Hin|Hin]; [discriminate|]).
    apply elem_of_nil in Hin. contradiction. }
  destruct (decide (sub (_extract_user_info ev) = [])) as [Hsub|Hsub].
  { rewrite (reader_unidentified cfg E ev Hid Hsub) in Hin. cbn in Hin.
    repeat (apply elem_of_cons in Hin as [Hin|Hin]; [discriminate|]).
    apply elem_of_nil in Hin. contradiction. }
  rewrite (reader_identified_trace cfg E ev Hid Hsub) in Hin.
  apply elem_of_app in Hin as [Hin|Hin].
  { repeat (apply elem_of_cons in Hin as [Hin|Hin]; [discriminate|]).
    apply elem_of_nil in Hin. contradiction. }
  destruct (dynamodb_get_item E (SUBMISSIONS_TABLE cfg) (path_id ev))
    as [[item|]|e] eqn:Hget.
  - case_bool_decide as Hempty.
    { apply elem_of_cons in Hin as [Hin|Hin]; [discriminate|].
      apply elem_of_nil in Hin. contradiction. }
    apply elem_of_app in Hin as [Hin|Hin].
    { apply authorise_logs_only in Hin as (lvl & msg & Hlog). discriminate. }
    rewrite authorise_decision in Hin.
    destruct (Spec.access_decision _ _ _) as [tier|] eqn:Hd;
      [|apply elem_of_nil in Hin; contradiction].
    assert (Heq : LambdaInvoke fn ty payload
                  = LambdaInvoke (AUDIT_FUNCTION_NAME cfg) (u "Event") (access_payload ev)).
    { apply elem_of_cons in Hin as [Hin|Hin]; [exact Hin|]. exfalso.
      destruct (lambda_invoke E _ _) as [e|]; [destruct (is_ClientError e)|];
        repeat (apply elem_of_cons in Hin as [Hin|Hin]; [discriminate|]);
        apply elem_of_nil in Hin; contradiction. }
    injection Heq as -> -> ->.
    repeat (split; [first [reflexivity|assumption]|]). eauto.
  - apply elem_of_cons in Hin as [Hin|Hin]; [discriminate|].
    apply elem_of_nil in Hin. contradiction.
  - destruct (is_ClientError e);
      repeat (apply elem_of_cons in Hin as [Hin|Hin]; [discriminate|]);
      apply elem_of_nil in Hin; contradiction.
Qed.

(** The faculty member's read of the record is audited. *)
Lemma X3_audit_only_for_granted_access_witness :
  LambdaInvoke (AUDIT_FUNCTION_NAME cfg) (u "Event") (access_payload faculty_reads_y)
    ∈ (lambda_handler cfg E_up faculty_reads_y).1
  /\ user_id (access_payload faculty_reads_y) = u "prof-1"
  /\ exists item tier,
       dynamodb_get_item E_up (SUBMISSIONS_TABLE cfg) (path_id faculty_reads_y)
         = GetItemOutput (Some item)
       /\ Spec.access_decision
            (Spec.group_memberships (groups (_extract_user_info faculty_reads_y)))
            (sub (_extract_user_info faculty_reads_y)) (record_owner item)
          = Spec.Allow tier.
Proof.
  match goal with |- ?P /\ _ => assert (Hin : P) end.
  { apply list_elem_of_lookup. exists 4%nat. vm_compute. reflexivity. }
  split; [exact Hin|]. split; [vm_compute; reflexivity|].
  destruct (X3_audit_only_for_granted_access cfg E_up faculty_reads_y _ _ _ Hin)
    as (_ & _ & _ & _ & _ & _ & _ & _ & Hgrant).
  exact Hgrant.
Defined.



(** X5. Every response the reader returns carries the fixed CORS headers
    and one of the status codes 200, 400, 403, 404, 500; a response other
    than 200 has exactly one body entry, the error message. *)
Theorem X5_reader_responses cfg E ev r :
  (lambda_handler cfg E ev).2 = Returned r ->
  headers r = CORS_HEADERS
  /\ statusCode r ∈ [200; 400; 403; 404; 500]
  /\ (statusCode r <> 200 -> exists msg, body r = error_body msg).
Proof.
  intros Hres.
  destruct (reader_outcomes cfg E ev)
    as [H|[H|[H|[H|[H|[(e & _ & H & _)|(item & tier & _ & _ & _ & _ & _ & H)]]]]]];
    try (rewrite H in Hres; injection Hres as <-;
         split; [reflexivity|]; split;
         [apply (bool_decide_unpack _); vm_compute; reflexivity|eauto]);
    try (rewrite H in Hres; discriminate Hres).
  destruct H as [H|(e & _ & H)]; rewrite H in Hres; [|discriminate Hres].
  injection Hres as <-. split; [reflexivity|]. split.
  - apply elem_of_cons. left. reflexivity.
  - intros Hne. exfalso. apply Hne. reflexivity.
Qed.

Lemma X5_reader_responses_witness :
  (lambda_handler cfg E_up student_x_reads_absent).2 = Returned not_found
  /\ headers not_found = CORS_HEADERS
  /\ statusCode not_found ∈ [200; 400; 403; 404; 500].
Proof.
  assert (Hres : (lambda_handler cfg E_up student_x_reads_absent).2 = Returned not_found)
    by (vm_compute; reflexivity).
  split; [exact Hres|].
  destruct (X5_reader_responses cfg E_up student_x_reads_absent _ Hres) as (Hh & Hs & _).
  split; [exact Hh|exact Hs].
Defined.

End ReaderExtras.

(** ** Further properties of the intake handler *)

Section IntakeMoreFacts.
Import Py Flow Intake IntakeMore Examples.Up.

Lemma drop_while_suffix {A} (p : A -> bool) (s : list A) :
  exists pre, s = pre ++ drop_while p s /\ Forall (fun x => p x = true) pre.
Proof.
  induction s as [|c s (pre & Hs & Hpre)]; cbn; [exists []; auto|].
  destruct (p c) eqn:Hc.
  - exists (c :: pre). split; [rewrite Hs at 1; reflexivity|]. constructor; assumption.
  - exists []. auto.
Qed.

Lemma drop_while_head {A} (p : A -> bool) (s : list A) :
  match drop_while p s with
  | [] => True
  | c :: _ => p c = false
  end.
Proof.
  induction s as [|c s IH]; cbn; [exact I|].
  destruct (p c) eqn:Hc; [exact IH|exact Hc].
Qed.

Lemma drop_while_id {A} (p : A -> bool) (s : list A) :
  match s with [] => True | c :: _ => p c = false end -> drop_while p s = s.
Proof. destruct s as [|c s]; cbn; [reflexivity|]. intros ->. reflexivity. Qed.

(** Trimming is idempotent: a trimmed text has nothing left to trim. *)
Lemma strip_by_idempotent {A} (p : A -> bool) (s : list A) :
  strip_by p (strip_by p s) = strip_by p s.
Proof.
  unfold strip_by.
  pose proof (drop_while_head p s) as Hhead.
  set (a := drop_while p s) in *.
  pose proof (drop_while_head p (reverse a)) as Hlast.
  destruct (drop_while_suffix p (reverse a)) as (pre & Hrev & _).
  set (c := drop_while p (reverse a)) in *.
  assert (Ha : a = reverse c ++ reverse pre).
  { apply (f_equal reverse) in Hrev. rewrite reverse_involutive, reverse_app in Hrev.
    exact Hrev. }
  assert (Hfront : drop_while p (reverse c) = reverse c).
  { apply drop_while_id. destruct (reverse c) as [|x l] eqn:Hc; [exact I|].
    rewrite Ha in Hhead. cbn in Hhead. exact Hhead. }
  rewrite Hfront, reverse_involutive.
  f_equal. apply drop_while_id. exact Hlast.
Qed.

(** What an accepted submission looks like. *)
Lemma validate_Next cfg E parts v :
  validate cfg E parts = Next v ->
  exists file,
    passes_field_checks parts file (original_filename v)
      (student_id v) (course_id v) (section_id v)
    /\ file_content v = value file
    /\ extension v = _get_extension E (original_filename v)
    /\ extension v ∈ ALLOWED_EXTENSIONS
    /\ file_size v = Z.of_nat (length (value file))
    /\ file_size v <= MAX_FILE_SIZE cfg.
Proof.
  unfold validate.
  destruct (parts !! u "file") as [file|] eqn:Hfile; [|discriminate].
  destruct (filename file) as [fname|] eqn:Hname; [|discriminate].
  destruct (check_required parts _) as [[]|r0|e0] eqn:Hreq; cbn [obind];
    [|discriminate..].
  unfold decoded_field, getitem.
  destruct (parts !! u "student_id") as [p1|] eqn:H1; cbn [obind]; [|discriminate].
  destruct (decode (value p1)) as [s1|] eqn:Hs1; cbn [obind]; [|discriminate].
  destruct (parts !! u "course_id") as [p2|] eqn:H2; cbn [obind]; [|discriminate].
  destruct (decode (value p2)) as [s2|] eqn:Hs2; cbn [obind]; [|discriminate].
  destruct (parts !! u "section_id") as [p3|] eqn:H3; cbn [obind]; [|discriminate].
  destruct (decode (value p3)) as [s3|] eqn:Hs3; cbn [obind]; [|discriminate].
  case_bool_decide as He1; cbn [orb]; [discriminate|].
  case_bool_decide as He2; cbn [orb]; [discriminate|].
  case_bool_decide as He3; cbn [orb]; [discriminate|].
  unfold member.
  case_bool_decide as Hext; cbn [negb]; [|discriminate].
  case_bool_decide as Hsize; [discriminate|].
  intros [= <-]. cbn.
  exists file. split.
  { split; [exact Hfile|]. split; [exact Hname|].
    repeat split; try assumption; eexists _, _; eauto. }
  repeat split; try assumption; try reflexivity; lia.
Qed.

(** X6. A submission that validation accepts satisfies: its extension is
    the lower-cased extension of its filename and is allow-listed; its
    size is the length of its content and within the ceiling; its three
    identifiers are non-empty and trimmed (trimming them again changes
    nothing). *)
Theorem X6_validated_submission_invariant cfg E parts v :
  validate cfg E parts = Next v ->
  extension v = _get_extension E (original_filename v)
  /\ extension v ∈ ALLOWED_EXTENSIONS
  /\ file_size v = Z.of_nat (length (file_content v))
  /\ 0 <= file_size v <= MAX_FILE_SIZE cfg
  /\ student_id v <> [] /\ strip (student_id v) = student_id v
  /\ course_id v <> [] /\ strip (course_id v) = course_id v
  /\ section_id v <> [] /\ strip (section_id v) = section_id v.
Proof.
  intros Hval.
  destruct (validate_Next cfg E parts v Hval)
    as (file & (_ & _ & Hs & Hsne & Hc & Hcne & Hx & Hxne) & Hcontent & Hext & Hin
        & Hsize & Hmax).
  assert (Htrim : forall key t, identifier parts key t -> strip t = t).
  { intros key t (p & s & _ & _ & <-). apply strip_by_idempotent. }
  rewrite Hcontent.
  repeat split; try assumption; try lia; eapply Htrim; eassumption.
Qed.

Lemma X6_validated_submission_invariant_witness :
  exists v,
    validate cfg E_up homework_parts = Next v
    /\ extension v ∈ ALLOWED_EXTENSIONS
    /\ 0 <= file_size v <= MAX_FILE_SIZE cfg
    /\ strip (student_id v) = student_id v.
Proof.
  destruct (validate cfg E_up homework_parts) as [v|r|e] eqn:Hval;
    [|vm_compute in Hval; discriminate..].
  exists v. split; [reflexivity|].
  destruct (X6_validated_submission_invariant cfg E_up homework_parts v Hval)
    as (_ & Hin & _ & Hsize & _ & Htrim & _).
  auto.
Defined.

End IntakeMoreFacts.

Section IntakeOutcomes.
Import Py Flow Intake IntakeMore Examples.Up.

Lemma check_required_return_built parts fields r :
  check_required parts fields = Return r ->
  exists msg, r = _build_response 400 (error_body msg).
Proof.
  induction fields as [|f fields IH]; cbn; [discriminate|].
  destruct (parts !! f); [exact IH|]. intros [= <-]. eauto.
Qed.

(** A rejection of the validator is a built response with status 400 or
    413 and an error message as its body. *)
Lemma validate_return_built cfg E parts r :
  validate cfg E parts = Return r ->
  exists status msg,
    r = _build_response status (error_body msg) /\ (status = 400 \/ status = 413).
Proof.
  unfold validate.
  destruct (parts !! u "file") as [file|]; [|intros [= <-]; eauto 6].
  destruct (filename file) as [fname|]; [|intros [= <-]; eauto 6].
  destruct (check_required parts _) as [[]|r0|e0] eqn:Hreq; cbn [obind].
  2:{ intros [= <-]. apply check_required_return_built in Hreq as [msg ->]. eauto 6. }
  2:{ discriminate. }
  destruct (decoded_field parts (u "student_id")) as [s1|r1|e1] eqn:H1; cbn [obind];
    [|exfalso; eapply decoded_field_not_return, H1|discriminate].
  destruct (decoded_field parts (u "course_id")) as [s2|r2|e2] eqn:H2; cbn [obind];
    [|exfalso; eapply decoded_field_not_return, H2|discriminate].
  destruct (decoded_field parts (u "section_id")) as [s3|r3|e3] eqn:H3; cbn [obind];
    [|exfalso; eapply decoded_field_not_return, H3|discriminate].
  destruct (_ || _); [intros [= <-]; eauto 6|].
  destruct (negb _); [intros [= <-]; eauto 6|].
  destruct (bool_decide _); [intros [= <-]; eauto 6|discriminate].
Qed.

(** The handler when no part mapping is produced: a preflight, a 400
    rejection of the body or of its content type, or a failure to decode
    base64. Only log records are written. *)
Lemma handler_without_parts_cases cfg E ev :
  decoded_parts E ev = None ->
  calls (lambda_handler cfg E ev).1 = []
  /\ ((httpMethod ev = u "OPTIONS"
       /\ lambda_handler cfg E ev = ([], _build_response 200 [(u "message", VStr (u "OK"))]))
      \/ (httpMethod ev <> u "OPTIONS"
          /\ ((exists msg,
                 (lambda_handler cfg E ev).2 = _build_response 400 (error_body msg))
              \/ (lambda_handler cfg E ev).2 = internal_error))).
Proof.
  unfold decoded_parts, lambda_handler, try_block.
  case_bool_decide as Hopt; [intros _; split; [reflexivity|left; auto]|].
  pose proof (decode_body_trace E ev) as Ht.
  destruct (decode_body E ev) as [t1 [body_bytes|r1|e1]] eqn:Hd; cbn in Ht |- *; subst t1.
  - unfold parse_body. destruct (negb _).
    + intros _. split; [reflexivity|]. right. split; [exact Hopt|]. left. eauto.
    + destruct (_parse_multipart _ body_bytes) as [exc|parts]; cbn; [|discriminate].
      intros _. split; [reflexivity|]. right. split; [exact Hopt|]. left. eauto.
  - intros _. split; [reflexivity|]. right. split; [exact Hopt|]. left.
    unfold decode_body in Hd. case_bool_decide.
    + injection Hd as <-. eauto.
    + destruct (isBase64Encoded ev); [|discriminate].
      destruct (b64decode E (event_body ev)); discriminate.
  - intros _. split; [reflexivity|]. right. split; [exact Hopt|]. right. reflexivity.
Qed.

Lemma decoded_parts_not_options E ev parts :
  decoded_parts E ev = Some parts -> httpMethod ev <> u "OPTIONS".
Proof. unfold decoded_parts. case_bool_decide; [discriminate|auto]. Qed.

(** X7. Every response of the intake handler carries the fixed CORS
    headers and one of the status codes 200, 400, 413, 500, and every
    response other than 200 has a body consisting of the single error
    message: no failure path leaks another field. *)
Theorem X7_intake_responses cfg E ev :
  let r := (lambda_handler cfg E ev).2 in
  headers r = CORS_HEADERS
  /\ statusCode r ∈ [200; 400; 413; 500]
  /\ (statusCode r <> 200 -> exists msg, body r = error_body msg).
Proof.
  intros r. subst r.
  destruct (decoded_parts E ev) as [parts|] eqn:Hparts.
  - rewrite (handler_after_decoding cfg E ev parts Hparts).
    destruct (validate cfg E parts) as [v|rv|e] eqn:Hval.
    + cbn zeta. rewrite store_eq. cbn zeta.
      destruct (s3_put_object E _ _ _).
      * destruct (dynamodb_put_item E _ _); cbn [snd].
        -- split; [reflexivity|]. split; [set_solver|]. intros Hne. exfalso. apply Hne.
           reflexivity.
        -- split; [reflexivity|]. split; [set_solver|]. eauto.
      * cbn [snd]. split; [reflexivity|]. split; [set_solver|]. eauto.
    + apply validate_return_built in Hval as (status & msg & -> & [-> | ->]); cbn [snd].
      * split; [reflexivity|]. split; [set_solver|]. eauto.
      * split; [reflexivity|]. split; [set_solver|]. eauto.
    + cbn [snd]. split; [reflexivity|]. split; [set_solver|]. eauto.
  - destruct (handler_without_parts_cases cfg E ev Hparts)
      as [_ [[_ ->]|[_ [[msg ->]| ->]]]].
    + split; [reflexivity|]. split; [set_solver|]. intros Hne. exfalso. apply Hne.
      reflexivity.
    + split; [reflexivity|]. split; [set_solver|]. eauto.
    + split; [reflexivity|]. split; [set_solver|]. eauto.
Qed.

(** With the blob store down the upload ends in 500 with an error body. *)
Lemma X7_intake_responses_witness :
  statusCode (lambda_handler cfg E_s3_down upload_homework).2 <> 200
  /\ headers (lambda_handler cfg E_s3_down upload_homework).2 = CORS_HEADERS
  /\ exists msg, body (lambda_handler cfg E_s3_down upload_homework).2 = error_body msg.
Proof.
  assert (Hne : statusCode (lambda_handler cfg E_s3_down upload_homework).2 <> 200)
    by (vm_compute; discriminate).
  destruct (X7_intake_responses cfg E_s3_down upload_homework) as (Hh & _ & Hbody).
  split; [exact Hne|]. split; [exact Hh|]. exact (Hbody Hne).
Defined.

End IntakeOutcomes.
Section IntakeStorage.
Import Py Flow Intake IntakeMore Examples.Up.

(** X8. Apart from the preflight, the intake handler answers 200 only
    after both storage writes have succeeded: the request was decoded and
    validated, put_object and put_item both returned for the validated
    submission, both calls are in the trace, and the response is the
    success response of that submission. *)
Theorem X8_success_only_after_both_writes cfg E ev :
  httpMethod ev <> u "OPTIONS" ->
  statusCode (lambda_handler cfg E ev).2 = 200 ->
  exists parts v,
    decoded_parts E ev = Some parts
    /\ validate cfg E parts = Next v
    /\ s3_put_object E (RAW_BUCKET cfg) (s3_key E v) (file_content v) = Succeeds
    /\ dynamodb_put_item E (SUBMISSIONS_TABLE cfg)
         (submission_item cfg E (default (u "anonymous") (claims ev !! u "sub"))
            (default (u "unknown") (claims ev !! u "email")) v) = Succeeds
    /\ (lambda_handler cfg E ev).2 = success_response E v
    /\ S3PutObject (RAW_BUCKET cfg) (s3_key E v) (file_content v)
         (u "application/octet-stream") (s3_metadata E v)
       ∈ (lambda_handler cfg E ev).1
    /\ DynamoPutItem (SUBMISSIONS_TABLE cfg)
         (submission_item cfg E (default (u "anonymous") (claims ev !! u "sub"))
            (default (u "unknown") (claims ev !! u "email")) v)
       ∈ (lambda_handler cfg E ev).1.
Proof.
  intros Hopt Hstatus.
  destruct (decoded_parts E ev) as [parts|] eqn:Hparts.
  2:{ exfalso.
      destruct (handler_without_parts_cases cfg E ev Hparts)
        as [_ [[Ho _]|[_ [[msg Hr]|Hr]]]]; [contradiction|..];
        rewrite Hr in Hstatus; discriminate Hstatus. }
  rewrite (handler_after_decoding cfg E ev parts Hparts) in Hstatus |- *.
  destruct (validate cfg E parts) as [v|rv|e] eqn:Hval.
  2:{ exfalso. apply validate_return_built in Hval as (status & msg & -> & [-> | ->]);
        discriminate Hstatus. }
  2:{ discriminate Hstatus. }
  cbn zeta in Hstatus |- *. rewrite store_eq in Hstatus |- *. cbn zeta in Hstatus |- *.
  exists parts, v. split; [reflexivity|]. split; [exact Hval|].
  set (user_id := default (u "anonymous") (claims ev !! u "sub")) in *.
  set (email := default (u "unknown") (claims ev !! u "email")) in *.
  destruct (s3_put_object E (RAW_BUCKET cfg) (s3_key E v) (file_content v));
    [|discriminate Hstatus].
  destruct (dynamodb_put_item E (SUBMISSIONS_TABLE cfg)
              (submission_item cfg E user_id email v)); [|discriminate Hstatus].
  split; [reflexivity|]. split; [reflexivity|]. split; [reflexivity|].
  cbn [fst]. split.
  - apply list_elem_of_lookup. exists 2%nat. reflexivity.
  - apply list_elem_of_lookup. exists 3%nat. reflexivity.
Qed.

Lemma X8_success_only_after_both_writes_witness :
  httpMethod upload_homework <> u "OPTIONS"
  /\ statusCode (lambda_handler cfg E_up upload_homework).2 = 200
  /\ exists parts v,
       decoded_parts E_up upload_homework = Some parts
       /\ validate cfg E_up parts = Next v
       /\ (lambda_handler cfg E_up upload_homework).2 = success_response E_up v.
Proof.
  assert (Hopt : httpMethod upload_homework <> u "OPTIONS") by (vm_compute; discriminate).
  assert (Hstatus : statusCode (lambda_handler cfg E_up upload_homework).2 = 200)
    by (vm_compute; reflexivity).
  split; [exact Hopt|]. split; [exact Hstatus|].
  destruct (X8_success_only_after_both_writes cfg E_up upload_homework Hopt Hstatus)
    as (parts & v & Hp & Hv & _ & _ & Hr & _).
  exists parts, v. auto.
Defined.

(** The service calls of a run come from the storage steps of a validated
    submission. *)
Lemma trace_call_inv cfg E ev f :
  f ∈ (lambda_handler cfg E ev).1 ->
  (exists lvl msg, f = Log lvl msg)
  \/ exists parts v,
       decoded_parts E ev = Some parts
       /\ validate cfg E parts = Next v
       /\ f ∈ (store cfg E (default (u "anonymous") (claims ev !! u "sub"))
                 (default (u "unknown") (claims ev !! u "email")) v).1.
Proof.
  intros Hin.
  destruct (decoded_parts E ev) as [parts|] eqn:Hparts.
  - rewrite (handler_after_decoding cfg E ev parts Hparts) in Hin.
    destruct (validate cfg E parts) as [v|rv|e] eqn:Hval; cbn [fst] in Hin.
    + cbn zeta in Hin. apply elem_of_cons in Hin as [->|Hin]; [eauto|].
      right. exists parts, v. auto.
    + apply elem_of_cons in Hin as [->|Hin]; [eauto|].
      apply elem_of_nil in Hin. contradiction.
    + repeat (apply elem_of_cons in Hin as [->|Hin]; [eauto|]).
      apply elem_of_nil in Hin. contradiction.
  - left. destruct (handler_without_parts_cases cfg E ev Hparts) as [Hcalls _].
    revert Hin Hcalls. generalize (lambda_handler cfg E ev).1. intros t.
    induction t as [|g t IH]; intros Hin Hcalls; [apply elem_of_nil in Hin; contradiction|].
    apply elem_of_cons in Hin as [->|Hin].
    + destruct g; try discriminate Hcalls. eauto.
    + destruct g; try discriminate Hcalls. exact (IH Hin Hcalls).
Qed.

Lemma audit_trace_inv cfg E user_id email v f :
  f ∈ audit_trace cfg E user_id email v ->
  AUDIT_FUNCTION_NAME cfg <> []
  /\ (f = LambdaInvoke (AUDIT_FUNCTION_NAME cfg) (u "Event")
            (upload_audit_payload E user_id email v)
      \/ f = Log ERROR (u "Failed to invoke audit-logger")).
Proof.
  unfold audit_trace. case_bool_decide as Hname;
    [intros Hin; apply elem_of_nil in Hin; contradiction|].
  intros Hin. split; [exact Hname|].
  destruct (lambda_invoke E _ _);
    repeat (apply elem_of_cons in Hin as [->|Hin]; [auto|]);
    apply elem_of_nil in Hin; contradiction.
Qed.

(** X9. The metadata record describes the object just written. Whenever a
    put_item is attempted, a put_object into the raw bucket has succeeded
    in the same run, and the record's file_path is the s3 URL of that
    bucket and key, its file_size the length of the stored bytes, its
    sha256_hash their digest, its status uploaded; the key is
    submissions/student_id/submission_id/file_name built from the
    record's own student_id, submission_id and file_name. *)
Theorem X9_record_describes_stored_object cfg E ev table item :
  DynamoPutItem table item ∈ (lambda_handler cfg E ev).1 ->
  table = SUBMISSIONS_TABLE cfg
  /\ exists key content sid subid fname,
       S3PutObject (RAW_BUCKET cfg) key content (u "application/octet-stream")
         [(u "submission_id", subid); (u "student_id", sid);
          (u "sha256", _sha256 E content)]
         ∈ (lambda_handler cfg E ev).1
       /\ s3_put_object E (RAW_BUCKET cfg) key content = Succeeds
       /\ key = u "submissions/" ++ sid ++ u "/" ++ subid ++ u "/" ++ fname
       /\ dict_get item (u "student_id") = Some (VStr sid)
       /\ dict_get item (u "submission_id") = Some (VStr subid)
       /\ dict_get item (u "file_name") = Some (VStr fname)
       /\ dict_get item (u "file_path")
          = Some (VStr (u "s3://" ++ RAW_BUCKET cfg ++ u "/" ++ key))
       /\ dict_get item (u "file_size") = Some (VInt (Z.of_nat (length content)))
       /\ dict_get item (u "sha256_hash") = Some (VStr (_sha256 E content))
       /\ dict_get item (u "status") = Some (VStr (u "uploaded")).
Proof.
  intros Hin.
  pose proof Hin as Hinv.
  apply trace_call_inv in Hinv as [(lvl & msg & [=])|(parts & v & Hparts & Hval & Hst)].
  rewrite (handler_after_decoding cfg E ev parts Hparts), Hval.
  cbn zeta. cbn [fst].
  destruct (validate_Next cfg E parts v Hval)
    as (file & _ & Hcontent & _ & _ & Hsize & _).
  rewrite store_eq in Hst |- *. cbn zeta in Hst |- *.
  set (user_id := default (u "anonymous") (claims ev !! u "sub")) in *.
  set (email := default (u "unknown") (claims ev !! u "email")) in *.
  destruct (s3_put_object E (RAW_BUCKET cfg) (s3_key E v) (file_content v)) eqn:Hs3.
  2:{ exfalso. cbn [fst] in Hst.
      repeat (apply elem_of_cons in Hst as [Hst|Hst]; [discriminate Hst|]).
      apply elem_of_nil in Hst. exact Hst. }
  assert (Heq : DynamoPutItem table item
                = DynamoPutItem (SUBMISSIONS_TABLE cfg)
                    (submission_item cfg E user_id email v)).
  { destruct (dynamodb_put_item E _ _); cbn [fst] in Hst.
    - apply elem_of_cons in Hst as [Hst|Hst]; [discriminate Hst|].
      apply elem_of_cons in Hst as [Hst|Hst]; [discriminate Hst|].
      apply elem_of_cons in Hst as [Hst|Hst]; [exact Hst|]. exfalso.
      apply elem_of_app in Hst as [Hst|Hst].
      + apply audit_trace_inv in Hst as [_ [Hst|Hst]]; discriminate Hst.
      + apply elem_of_cons in Hst as [Hst|Hst]; [discriminate Hst|].
        apply elem_of_nil in Hst. exact Hst.
    - apply elem_of_cons in Hst as [Hst|Hst]; [discriminate Hst|].
      apply elem_of_cons in Hst as [Hst|Hst]; [discriminate Hst|].
      apply elem_of_cons in Hst as [Hst|Hst]; [exact Hst|]. exfalso.
      repeat (apply elem_of_cons in Hst as [Hst|Hst]; [discriminate Hst|]).
      apply elem_of_nil in Hst. exact Hst. }
  injection Heq as -> ->. split; [reflexivity|].
  exists (s3_key E v), (file_content v), (student_id v), (uuid4 E), (original_filename v).
  split.
  { apply list_elem_of_lookup. exists 2%nat.
    destruct (dynamodb_put_item E _ _); reflexivity. }
  split; [exact Hs3|]. split; [reflexivity|].
  repeat (split; [reflexivity|]).
  split; [cbn; rewrite Hsize, Hcontent; reflexivity|].
  split; reflexivity.
Qed.

Lemma X9_record_describes_stored_object_witness :
  exists item key content sid subid fname,
    DynamoPutItem (SUBMISSIONS_TABLE cfg) item ∈ (lambda_handler cfg E_up upload_homework).1
    /\ s3_put_object E_up (RAW_BUCKET cfg) key content = Succeeds
    /\ key = u "submissions/" ++ sid ++ u "/" ++ subid ++ u "/" ++ fname
    /\ dict_get item (u "file_path")
       = Some (VStr (u "s3://" ++ RAW_BUCKET cfg ++ u "/" ++ key))
    /\ dict_get item (u "file_size") = Some (VInt (Z.of_nat (length content))).
Proof.
  destruct ((lambda_handler cfg E_up upload_homework).1 !! 3%nat) as [f|] eqn:Hf;
    [|vm_compute in Hf; discriminate].
  destruct f as [| |table item|]; try (vm_compute in Hf; discriminate).
  assert (Hin : DynamoPutItem table item ∈ (lambda_handler cfg E_up upload_homework).1).
  { apply list_elem_of_lookup. exists 3%nat. exact Hf. }
  destruct (X9_record_describes_stored_object cfg E_up upload_homework table item Hin)
    as (-> & key & content & sid & subid & fname & _ & Hs3 & Hkey & _ & _ & _ & Hpath
        & Hsz & _).
  exists item, key, content, sid, subid, fname. auto.
Defined.

End IntakeStorage.

Section IntakePartialFailure.
Import Py Flow Intake IntakeMore Examples.Up.

(** X10. When the metadata write fails after the blob was written, the
    handler returns the 500 record failure; the blob write has succeeded
    and stays: the service calls of the run are exactly the blob write
    followed by the metadata write, with neither a compensating delete nor
    an audit notification. *)
Theorem X10_metadata_write_failure cfg E ev table item :
  DynamoPutItem table item ∈ (lambda_handler cfg E ev).1 ->
  dynamodb_put_item E table item <> Succeeds ->
  (lambda_handler cfg E ev).2 = record_failed
  /\ statusCode (lambda_handler cfg E ev).2 = 500
  /\ calls (lambda_handler cfg E ev).1 = [BlobPut; MetadataPut]
  /\ exists key content ctype md,
       S3PutObject (RAW_BUCKET cfg) key content ctype md ∈ (lambda_handler cfg E ev).1
       /\ s3_put_object E (RAW_BUCKET cfg) key content = Succeeds.
Proof.
  intros Hin Hfail.
  pose proof Hin as Hinv.
  apply trace_call_inv in Hinv as [(lvl & msg & [=])|(parts & v & Hparts & Hval & Hst)].
  rewrite (handler_after_decoding cfg E ev parts Hparts), Hval.
  cbn zeta. rewrite store_eq in Hst |- *. cbn zeta in Hst |- *.
  set (user_id := default (u "anonymous") (claims ev !! u "sub")) in *.
  set (email := default (u "unknown") (claims ev !! u "email")) in *.
  destruct (s3_put_object E (RAW_BUCKET cfg) (s3_key E v) (file_content v)) eqn:Hs3.
  2:{ exfalso. cbn [fst] in Hst.
      repeat (apply elem_of_cons in Hst as [Hst|Hst]; [discriminate Hst|]).
      apply elem_of_nil in Hst. exact Hst. }
  destruct (dynamodb_put_item E (SUBMISSIONS_TABLE cfg)
              (submission_item cfg E user_id email v)) eqn:Hdyn.
  { exfalso. cbn [fst] in Hst.
    apply elem_of_cons in Hst as [Hst|Hst]; [discriminate Hst|].
    apply elem_of_cons in Hst as [Hst|Hst]; [discriminate Hst|].
    apply elem_of_cons in Hst as [Hst|Hst].
    { injection Hst as -> ->. exact (Hfail Hdyn). }
    apply elem_of_app in Hst as [Hst|Hst].
    - apply audit_trace_inv in Hst as [_ [Hst|Hst]]; discriminate Hst.
    - apply elem_of_cons in Hst as [Hst|Hst]; [discriminate Hst|].
      apply elem_of_nil in Hst. exact Hst. }
  split; [reflexivity|]. split; [reflexivity|]. split; [reflexivity|].
  exists (s3_key E v), (file_content v), (u "application/octet-stream"), (s3_metadata E v).
  split; [|exact Hs3].
  apply list_elem_of_lookup. exists 2%nat. reflexivity.
Qed.

Lemma X10_metadata_write_failure_witness :
  let E := runtime Succeeds (Fails (u "ProvisionedThroughputExceededException")) Succeeds in
  exists item,
    DynamoPutItem (SUBMISSIONS_TABLE cfg) item ∈ (lambda_handler cfg E upload_homework).1
    /\ (lambda_handler cfg E upload_homework).2 = record_failed
    /\ calls (lambda_handler cfg E upload_homework).1 = [BlobPut; MetadataPut].
Proof.
  intros E.
  destruct ((lambda_handler cfg E upload_homework).1 !! 3%nat) as [f|] eqn:Hf;
    [|vm_compute in Hf; discriminate].
  destruct f as [| |table item|]; try (vm_compute in Hf; discriminate).
  assert (Ht : table = SUBMISSIONS_TABLE cfg).
  { vm_compute in Hf. injection Hf as <- _. reflexivity. }
  subst table.
  assert (Hin : DynamoPutItem (SUBMISSIONS_TABLE cfg) item
                ∈ (lambda_handler cfg E upload_homework).1).
  { apply list_elem_of_lookup. exists 3%nat. exact Hf. }
  assert (Hfail : dynamodb_put_item E (SUBMISSIONS_TABLE cfg) item <> Succeeds)
    by (cbn; discriminate).
  destruct (X10_metadata_write_failure cfg E upload_homework _ item Hin Hfail)
    as (Hr & _ & Hc & _).
  exists item. auto.
Defined.

(** X11. The audit notification is sent only for a stored submission:
    whenever the audit function is invoked, it is the configured,
    non-empty function name, the invocation is asynchronous, the payload
    is the UPLOAD event of the validated submission, both storage writes
    have succeeded before, and the response is the 200 success whatever the
    invocation does. *)
Theorem X11_audit_only_after_both_writes cfg E ev fn ty payload :
  LambdaInvoke fn ty payload ∈ (lambda_handler cfg E ev).1 ->
  fn = AUDIT_FUNCTION_NAME cfg /\ fn <> [] /\ ty = u "Event"
  /\ exists parts v,
       decoded_parts E ev = Some parts
       /\ validate cfg E parts = Next v
       /\ payload = upload_audit_payload E
                      (default (u "anonymous") (claims ev !! u "sub"))
                      (default (u "unknown") (claims ev !! u "email")) v
       /\ s3_put_object E (RAW_BUCKET cfg) (s3_key E v) (file_content v) = Succeeds
       /\ dynamodb_put_item E (SUBMISSIONS_TABLE cfg)
            (submission_item cfg E (default (u "anonymous") (claims ev !! u "sub"))
               (default (u "unknown") (claims ev !! u "email")) v) = Succeeds
       /\ (lambda_handler cfg E ev).2 = success_response E v
       /\ exists before after,
            (lambda_handler cfg E ev).1 = before ++ LambdaInvoke fn ty payload :: after
            /\ calls before = [BlobPut; MetadataPut]
            /\ calls after = [].
Proof.
  intros Hin.
  pose proof Hin as Hinv.
  apply trace_call_inv in Hinv as [(lvl & msg & [=])|(parts & v & Hparts & Hval & Hst)].
  rewrite (handler_after_decoding cfg E ev parts Hparts), Hval.
  cbn zeta. rewrite store_eq in Hst |- *. cbn zeta in Hst |- *.
  set (user_id := default (u "anonymous") (claims ev !! u "sub")) in *.
  set (email := default (u "unknown") (claims ev !! u "email")) in *.
  destruct (s3_put_object E (RAW_BUCKET cfg) (s3_key E v) (file_content v)) eqn:Hs3.
  2:{ exfalso. cbn [fst] in Hst.
      repeat (apply elem_of_cons in Hst as [Hst|Hst]; [discriminate Hst|]).
      apply elem_of_nil in Hst. exact Hst. }
  destruct (dynamodb_put_item E (SUBMISSIONS_TABLE cfg)
              (submission_item cfg E user_id email v)) eqn:Hdyn.
  2:{ exfalso. cbn [fst] in Hst.
      repeat (apply elem_of_cons in Hst as [Hst|Hst]; [discriminate Hst|]).
      apply elem_of_nil in Hst. exact Hst. }
  cbn [fst] in Hst.
  apply elem_of_cons in Hst as [Hst|Hst]; [discriminate Hst|].
  apply elem_of_cons in Hst as [Hst|Hst]; [discriminate Hst|].
  apply elem_of_cons in Hst as [Hst|Hst]; [discriminate Hst|].
  apply elem_of_app in Hst as [Hst|Hst].
  2:{ exfalso. apply elem_of_cons in Hst as [Hst|Hst]; [discriminate Hst|].
      apply elem_of_nil in Hst. exact Hst. }
  pose proof Hst as Hau.
  apply audit_trace_inv in Hau as [Hname [Heq|Heq]]; [|discriminate Heq].
  injection Heq as -> -> ->.
  split; [reflexivity|]. split; [exact Hname|]. split; [reflexivity|].
  exists parts, v. split; [exact Hparts|]. split; [exact Hval|].
  split; [reflexivity|]. split; [exact Hs3|]. split; [exact Hdyn|].
  split; [reflexivity|].
  cbn [fst]. clear Hst. unfold audit_trace.
  rewrite bool_decide_eq_false_2 by exact Hname.
  destruct (lambda_invoke E _ _).
  - eexists [_; _; _; _], [_]. split; [reflexivity|]. split; reflexivity.
  - eexists [_; _; _; _], [_; _]. split; [reflexivity|]. split; reflexivity.
Qed.

Lemma X11_audit_only_after_both_writes_witness :
  exists payload v,
    LambdaInvoke (AUDIT_FUNCTION_NAME cfg) (u "Event") payload
      ∈ (lambda_handler cfg E_audit_down upload_homework).1
    /\ (lambda_handler cfg E_audit_down upload_homework).2 = success_response E_audit_down v.
Proof.
  destruct ((lambda_handler cfg E_audit_down upload_homework).1 !! 4%nat) as [f|] eqn:Hf;
    [|vm_compute in Hf; discriminate].
  destruct f as [| | |fn ty payload]; try (vm_compute in Hf; discriminate).
  assert (Hin : LambdaInvoke fn ty payload
                ∈ (lambda_handler cfg E_audit_down upload_homework).1).
  { apply list_elem_of_lookup. exists 4%nat. exact Hf. }
  destruct (X11_audit_only_after_both_writes cfg E_audit_down upload_homework
              fn ty payload Hin)
    as (Hfn & _ & Hty & parts & v & _ & _ & _ & _ & _ & Hr & _).
  subst fn ty. exists payload, v. split; [exact Hin|exact Hr].
Defined.

End IntakePartialFailure.

Section IntakeTransport.
Import Py Flow Intake IntakeMore Examples.Up.



End IntakeTransport.

Section SplitFacts.
Import Py.
Context {A : Type} `{EqDecision A}.

Lemma startswith_prefix (p r : list A) : startswith p (p ++ r) = true.
Proof.
  induction p as [|x p IH]; cbn; [reflexivity|].
  rewrite bool_decide_eq_true_2 by reflexivity. exact IH.
Qed.

Lemma split_once_Some (sep s before after : list A) :
  split_once sep s = Some (before, after) -> s = before ++ sep ++ after.
Proof.
  revert before. induction s as [|c s IH]; intros before; cbn [split_once].
  - destruct (strip_prefix sep []) eqn:Hp; [|discriminate].
    intros [= <- <-]. apply strip_prefix_Some in Hp. exact Hp.
  - destruct (strip_prefix sep (c :: s)) eqn:Hp.
    + intros [= <- <-]. apply strip_prefix_Some in Hp. exact Hp.
    + destruct (split_once sep s) as [[x y]|]; [|discriminate].
      intros [= <- <-]. rewrite (IH x eq_refl). reflexivity.
Qed.

Lemma split_once_occurs (sep a c : list A) : is_Some (split_once sep (a ++ sep ++ c)).
Proof.
  induction a as [|x a IH].
  - cbn [app]. pose proof (strip_prefix_app sep c) as Hp.
    destruct (sep ++ c); cbn [split_once]; rewrite Hp; eauto.
  - cbn [app split_once]. destruct (strip_prefix sep (x :: a ++ sep ++ c)); [eauto|].
    destruct IH as [[x0 y0] ->]. eauto.
Qed.

(** [sep in s] holds exactly when [sep] occurs in [s]. *)
Lemma contains_true (sep s : list A) :
  contains sep s = true <-> exists a c, s = a ++ sep ++ c.
Proof.
  unfold contains. rewrite bool_decide_eq_true. split.
  - intros [[x y] Hxy]. apply split_once_Some in Hxy. eauto.
  - intros (a & c & ->). apply split_once_occurs.
Qed.

Lemma contains_infix (sep a s c : list A) :
  contains sep (a ++ s ++ c) = false -> contains sep s = false.
Proof.
  intros Hno. apply not_true_is_false. intros Hs.
  apply contains_true in Hs as (x & y & ->).
  apply not_true_iff_false in Hno. apply Hno, contains_true.
  exists (a ++ x), (y ++ c). rewrite <- !app_assoc. reflexivity.
Qed.

(** A text none of whose non-empty suffixes, followed by [s], starts with
    the separator does not contain the separator. *)
Lemma piece_free (sep l s : list A) :
  sep <> [] ->
  (forall a c, l = a ++ c -> c <> [] -> startswith sep (c ++ s) = false) ->
  contains sep l = false.
Proof.
  intros Hsep Hinv. apply not_true_is_false. intros Hc.
  apply contains_true in Hc as (a & c & ->).
  specialize (Hinv a (sep ++ c) eq_refl).
  rewrite <- app_assoc, startswith_prefix in Hinv.
  assert (sep ++ c <> []) as Hne by (destruct sep; [contradiction|discriminate]).
  specialize (Hinv Hne). discriminate.
Qed.

(** No piece of a split contains the separator. *)
Lemma split_go_free (sep : list A) (s : list A) :
  sep <> [] ->
  forall skip cur,
    (skip <> 0%nat -> cur = []) ->
    (forall a c, reverse cur = a ++ c -> c <> [] -> startswith sep (c ++ s) = false) ->
    forall p, p ∈ split_go sep skip cur s -> contains sep p = false.
Proof.
  intros Hsep. induction s as [|c0 s IH]; intros skip cur Hskip Hinv p Hp.
  - cbn in Hp. apply list_elem_of_singleton in Hp as ->.
    exact (piece_free sep _ [] Hsep Hinv).
  - cbn [split_go] in Hp. destruct skip as [|k].
    + destruct (startswith sep (c0 :: s)) eqn:Hstart.
      * apply elem_of_cons in Hp as [->|Hp].
        { exact (piece_free sep _ (c0 :: s) Hsep Hinv). }
        apply (IH (length sep - 1)%nat []); [reflexivity| |exact Hp].
        intros a c Hac Hc. symmetry in Hac. apply app_eq_nil in Hac as [_ ->].
        contradiction.
      * apply (IH 0%nat (c0 :: cur)); [intros Hk; contradiction| |exact Hp].
        intros a c Hac Hc. rewrite reverse_cons in Hac.
        destruct c as [|x c _] using rev_ind; [contradiction|].
        rewrite app_assoc in Hac. apply app_inj_tail in Hac as [Hcur <-].
        rewrite <- app_assoc. cbn [app].
        destruct c as [|y c]; [exact Hstart|].
        apply (Hinv a (y :: c) Hcur). discriminate.
    + rewrite (Hskip ltac:(discriminate)) in Hp.
      apply (IH k []); [reflexivity| |exact Hp].
      intros a c Hac Hc. symmetry in Hac. apply app_eq_nil in Hac as [_ ->].
      contradiction.
Qed.

Lemma split_free (sep s p : list A) :
  sep <> [] -> p ∈ split sep s -> contains sep p = false.
Proof.
  intros Hsep Hp. apply (split_go_free sep s Hsep 0%nat [] ltac:(contradiction)); [|exact Hp].
  intros a c Hac Hc. symmetry in Hac. apply app_eq_nil in Hac as [_ ->]. contradiction.
Qed.

End SplitFacts.

Section DecoderInvariants.
Import Py Flow Intake Examples.Up.

Lemma re_search_Some (m : str -> option str) (s g : str) :
  re_search m s = Some g -> exists before s', s = before ++ s' /\ m s' = Some g.
Proof.
  induction s as [|c s IH]; cbn.
  - destruct (m []) eqn:Hm; [|discriminate]. intros [= <-]. exists [], []. auto.
  - destruct (m (c :: s)) eqn:Hm.
    + intros [= <-]. exists [], (c :: s). auto.
    + intros Hs. destruct (IH Hs) as (before & s' & -> & Hs').
      exists (c :: before), s'. auto.
Qed.

Lemma match_name_Some (s name : str) :
  match_name s = Some name ->
  name <> [] /\ (DQUOTE ∉ name)
  /\ exists after, s = (u "name=" ++ [DQUOTE]) ++ name ++ DQUOTE :: after.
Proof.
  unfold match_name.
  destruct (strip_prefix (u "name=" ++ [DQUOTE]) s) as [rest|] eqn:Hp; [|discriminate].
  apply strip_prefix_Some in Hp as ->.
  pose proof (take_while_split (fun c => negb (bool_decide (c = DQUOTE))) rest) as Hsplit.
  pose proof (take_while_Forall (fun c => negb (bool_decide (c = DQUOTE))) rest) as Hall.
  destruct (take_while _ rest) as [|c tok] eqn:Htok; [discriminate|].
  destruct (startswith [DQUOTE] (drop (length (c :: tok)) rest)) eqn:Hq; [|discriminate].
  intros [= <-]. split; [discriminate|]. split.
  - intros Hin. rewrite Forall_forall in Hall. specialize (Hall _ Hin).
    rewrite bool_decide_eq_true_2 in Hall by reflexivity. discriminate.
  - apply startswith_app in Hq as [after Hq]. exists after.
    rewrite Hsplit at 1. rewrite Hq. reflexivity.
Qed.

Lemma match_filename_Some (s f : str) :
  match_filename s = Some f ->
  (DQUOTE ∉ f)
  /\ exists after, s = (u "filename=" ++ [DQUOTE]) ++ f ++ DQUOTE :: after.
Proof.
  unfold match_filename.
  destruct (strip_prefix (u "filename=" ++ [DQUOTE]) s) as [rest|] eqn:Hp; [|discriminate].
  apply strip_prefix_Some in Hp as ->.
  pose proof (take_while_split (fun c => negb (bool_decide (c = DQUOTE))) rest) as Hsplit.
  pose proof (take_while_Forall (fun c => negb (bool_decide (c = DQUOTE))) rest) as Hall.
  cbn zeta.
  destruct (startswith [DQUOTE] (drop (length (take_while _ rest)) rest)) eqn:Hq;
    [|discriminate].
  intros [= <-]. split.
  - intros Hin. rewrite Forall_forall in Hall. specialize (Hall _ Hin).
    rewrite bool_decide_eq_true_2 in Hall by reflexivity. discriminate.
  - apply startswith_app in Hq as [after Hq]. exists after.
    rewrite Hsplit at 1. rewrite Hq. reflexivity.
Qed.

Lemma split_headers_Some (seg h body : bytes) :
  split_headers seg = Some (h, body) ->
  exists sep, seg = h ++ sep ++ body.
Proof.
  unfold split_headers.
  destruct (contains (CRLF ++ CRLF) seg).
  - intros Hs. apply split_once_Some in Hs. eauto.
  - destruct (contains [LF; LF] seg); [|discriminate].
    intros Hs. apply split_once_Some in Hs. eauto.
Qed.

(** What an entry read off a segment looks like. *)
Lemma parse_part_Some (seg : bytes) (key : str) (p : part) :
  parse_part seg = Some (key, p) ->
  key <> [] /\ (DQUOTE ∉ key)
  /\ (forall f, filename p = Some f -> DQUOTE ∉ f)
  /\ exists a c, seg = a ++ value p ++ c.
Proof.
  unfold parse_part. destruct (is_delimiter_artifact seg); [discriminate|].
  destruct (split_headers seg) as [[h body]|] eqn:Hsplit; [|discriminate].
  cbn zeta.
  destruct (re_search match_name (decode_replace h)) as [name|] eqn:Hname; [|discriminate].
  intros [= <- <-]. cbn [value filename].
  apply re_search_Some in Hname as (before & s' & _ & Hm).
  apply match_name_Some in Hm as (Hne & Hq & _).
  split; [exact Hne|]. split; [exact Hq|]. split.
  - intros f Hf. apply re_search_Some in Hf as (before' & s'' & _ & Hm).
    apply match_filename_Some in Hm as [Hqf _]. exact Hqf.
  - apply split_headers_Some in Hsplit as [sep ->].
    destruct (endswith CRLF body).
    + exists (h ++ sep), (drop (length body - 2) body). unfold drop_last.
      rewrite <- !app_assoc, take_drop. reflexivity.
    + exists (h ++ sep), []. rewrite <- !app_assoc, app_nil_r. reflexivity.
Qed.

Lemma parse_loop_origin (segments : list bytes) (parsed : gmap str part)
    (key : str) (p : part) :
  parse_loop parsed segments !! key = Some p ->
  parsed !! key = Some p
  \/ exists seg, seg ∈ segments /\ parse_part seg = Some (key, p).
Proof.
  revert parsed. induction segments as [|seg segments IH]; intros parsed; cbn.
  - auto.
  - intros Hl. apply IH in Hl as [Hl|(seg' & Hin & Hp)].
    + destruct (parse_part seg) as [[name entry]|] eqn:Hseg; [|auto].
      destruct (decide (name = key)) as [->|Hne].
      * rewrite lookup_insert_eq in Hl. injection Hl as ->.
        right. exists seg. split; [left|exact Hseg].
      * rewrite lookup_insert_ne in Hl by exact Hne. auto.
    + right. exists seg'. split; [right; exact Hin|exact Hp].
Qed.

Lemma delimiter_of_nonempty (m : str) : delimiter_of m <> [].
Proof.
  unfold delimiter_of. change (u "--") with [ch "-"; ch "-"].
  cbn [app]. unfold encode. rewrite bind_cons. discriminate.
Qed.

(** X13. What the multipart decoder delivers: every key of the parsed
    mapping is a non-empty text without a double quote, every filename is
    free of double quotes, and no value contains the delimiter of the body
    (the two dashes followed by the boundary of the content type). *)
Theorem X13_parsed_entries (content_type : str) (body_bytes : bytes)
    (parsed : gmap str part) (key : str) (p : part) :
  _parse_multipart content_type body_bytes = inr parsed ->
  parsed !! key = Some p ->
  key <> [] /\ (DQUOTE ∉ key)
  /\ (forall f, filename p = Some f -> DQUOTE ∉ f)
  /\ exists m, re_search match_boundary content_type = Some m
       /\ contains (delimiter_of m) (value p) = false.
Proof.
  unfold _parse_multipart.
  destruct (re_search match_boundary content_type) as [m|]; [|discriminate].
  intros [= <-] Hl.
  apply parse_loop_origin in Hl as [Hl|(seg & Hin & Hp)];
    [rewrite lookup_empty in Hl; discriminate|].
  apply parse_part_Some in Hp as (Hne & Hq & Hf & a & c & Hseg).
  split; [exact Hne|]. split; [exact Hq|]. split; [exact Hf|].
  exists m. split; [reflexivity|].
  apply split_free in Hin; [|apply delimiter_of_nonempty].
  rewrite Hseg in Hin. exact (contains_infix _ _ _ _ Hin).
Qed.

Lemma X13_parsed_entries_witness :
  exists parsed p,
    _parse_multipart content_type homework_body = inr parsed
    /\ parsed !! u "file" = Some p
    /\ (forall f, filename p = Some f -> DQUOTE ∉ f)
    /\ contains (b "--XYZ") (value p) = false.
Proof.
  destruct (_parse_multipart content_type homework_body) as [msg|parsed] eqn:Hparse;
    [vm_compute in Hparse; discriminate|].
  assert (Hl : parsed !! u "file" = Some homework_file).
  { assert (Heq : inr parsed = inr (B := gmap str part) homework_parts
                  :> (str + gmap str part)).
    { rewrite <- Hparse. vm_compute. reflexivity. }
    injection Heq as ->. vm_compute. reflexivity. }
  destruct (X13_parsed_entries content_type homework_body parsed (u "file")
              homework_file Hparse Hl)
    as (_ & _ & Hf & m & Hm & Hfree).
  exists parsed, homework_file. split; [reflexivity|]. split; [exact Hl|].
  split; [exact Hf|]. vm_compute. reflexivity.
Defined.

End DecoderInvariants.
